(** * polymer-analyzer: scanning, resolution and validation of extracted features

    A shallow embedding of the feature-extraction code of polymer-analyzer:
    the Polymer declaration property handlers ([behaviors], [listeners]),
    the namespace scanner, the TypeScript pre-parser, the resolution of
    scanned element mixins, the coordinate mapper for inline documents and
    the validator of generated metadata.

    JavaScript values keep their dynamic semantics where the code relies on
    it (truthiness, [&&], [||], [typeof], property access on a node that
    lacks the property).  Code that mutates an object and may throw is
    written in a state-and-exception monad whose state is the mutated
    object. *)

From Stdlib Require Import ZArith SpecFloat Ascii.
From stdpp Require Import base strings list gmap.

#[local] Open Scope string_scope.

(** ** JavaScript values *)

Module Js.

(** The primitive values that can appear in the code under study.  A number
    is an IEEE-754 double, given by its specification-level datum. *)
Inductive Value : Type :=
| Undefined
| Null
| Boolean (b : bool)
| Number (x : spec_float)
| Str (s : string)
| RegExp (pattern flags : string).

(** ToBoolean. *)
Definition truthy (v : Value) : bool :=
  match v with
  | Undefined | Null => false
  | Boolean b => b
  | Number S754_nan | Number (S754_zero _) => false
  | Number _ => true
  | Str s => negb (String.eqb s "")
  | RegExp _ _ => true
  end.

(** [a && b] and [a || b]: the value of one of the operands. *)
Definition and (a b : Value) : Value := if truthy a then b else a.
Definition or (a b : Value) : Value := if truthy a then a else b.

Definition typeof (v : Value) : string :=
  match v with
  | Undefined => "undefined"
  | Null => "object"
  | Boolean _ => "boolean"
  | Number _ => "number"
  | Str _ => "string"
  | RegExp _ _ => "object"
  end.

(** The string behind a value that a [typeof v === 'string'] test has
    narrowed. *)
Definition as_string (v : Value) : string :=
  match v with Str s => s | _ => "" end.

(** A [string | undefined] result seen as a value. *)
Definition of_option (o : option string) : Value :=
  match o with Some s => Str s | None => Undefined end.

End Js.

(** ** The ESTree nodes the scanners look at

    The node kinds that the code tells apart, and [OtherNode] for every other
    kind, which keeps its [type] only.  As in the ESTree typings that the
    code is checked against, the elements of an array literal are nodes and
    the properties of an object literal are [Property] nodes. *)

#[warnings="-register-all"]
Inductive Node : Type :=
| Identifier (name : string)
| Literal (value : Js.Value)
| MemberExpression (object property : Node) (computed : bool)
| ArrayExpression (elements : list Node)
| ObjectExpression (properties : list Property)
| SpreadElement (argument : Node)
| VariableDeclaration (declarations : list VariableDeclarator) (kind : string)
| AssignmentExpression (operator : string) (left right : Node)
| ExpressionStatement (expression : Node)
| OtherNode (type : string)
with Property : Type :=
| Build_Property (key value : Node) (computed shorthand method : bool)
with VariableDeclarator : Type :=
| Build_VariableDeclarator (id : Node) (init : option Node).

Definition key (p : Property) : Node :=
  match p with Build_Property k _ _ _ _ => k end.
Definition value (p : Property) : Node :=
  match p with Build_Property _ v _ _ _ => v end.
Definition computed (p : Property) : bool :=
  match p with Build_Property _ _ c _ _ => c end.
Definition id (d : VariableDeclarator) : Node :=
  match d with Build_VariableDeclarator i _ => i end.

(** [node.type] *)
Definition node_type (n : Node) : string :=
  match n with
  | Identifier _ => "Identifier"
  | Literal _ => "Literal"
  | MemberExpression _ _ _ => "MemberExpression"
  | ArrayExpression _ => "ArrayExpression"
  | ObjectExpression _ => "ObjectExpression"
  | SpreadElement _ => "SpreadElement"
  | VariableDeclaration _ _ => "VariableDeclaration"
  | AssignmentExpression _ _ _ => "AssignmentExpression"
  | ExpressionStatement _ => "ExpressionStatement"
  | OtherNode t => t
  end.

(** [node.value] and [node.name]: reading a property the node does not have
    gives [undefined]. *)
Definition node_value (n : Node) : Js.Value :=
  match n with Literal v => v | _ => Js.Undefined end.
Definition node_name (n : Node) : Js.Value :=
  match n with Identifier s => Js.Str s | _ => Js.Undefined end.

(** [node.elements] and [node.properties] after the [node.type] test has
    narrowed the node. *)
Definition node_elements (n : Node) : list Node :=
  match n with ArrayExpression es => es | _ => [] end.
Definition node_properties (n : Node) : list Property :=
  match n with ObjectExpression ps => ps | _ => [] end.

(** ** Source ranges, warnings and exceptions *)

Record SourcePosition : Type := { line : Z; column : Z }.

Record SourceRange : Type :=
  { file : string; start : SourcePosition; end_ : SourcePosition }.

Inductive Severity : Type := ERROR | WARNING | INFO.

Record Warning : Type :=
  { code : string;
    message : string;
    severity : Severity;
    sourceRange : option SourceRange }.

(** What a [throw] carries. *)
Inductive Exception : Type :=
| Error (msg : string)
| WarningCarryingException (warning : Warning)
| ValidationError (msg : string) (errors : list string).

Inductive Result (A : Type) : Type :=
| Ok (a : A)
| Throw (e : Exception).
Arguments Ok {A} a.
Arguments Throw {A} e.

(** ** Mutation of an object by code that may throw

    [M St A] is a computation over a mutable object of type [St].  A throw
    leaves the object as mutated so far. *)

Definition M (St A : Type) : Type := St -> Result A * St.

#[global] Instance M_ret {St} : MRet (M St) :=
  fun A a st => (Ok a, st).

#[global] Instance M_bind {St} : MBind (M St) :=
  fun A B f m st =>
    match m st with
    | (Ok a, st') => f a st'
    | (Throw e, st') => (Throw e, st')
    end.

Definition throw {St A} (e : Exception) : M St A := fun st => (Throw e, st).
Definition modify {St} (f : St -> St) : M St unit := fun st => (Ok tt, f st).
Definition gets {St A} (f : St -> A) : M St A := fun st => (Ok (f st), st).

(** [for (const x of xs) body(x)] *)
Fixpoint for_of {St A} (xs : list A) (body : A -> M St unit) : M St unit :=
  match xs with
  | [] => mret tt
  | x :: xs' => body x;; for_of xs' body
  end.

(** ** Collaborators of the scanners

    A parsed JavaScript document is used through its range lookup only. *)

Record JavaScriptDocument : Type :=
  { sourceRangeForNode : Node -> option SourceRange }.

Module Behavior.

Record ScannedBehaviorAssignment : Type :=
  { name : string; sourceRange : option SourceRange }.

End Behavior.

Record Listener : Type := { event : string; handler : string }.

(** The part of a scanned Polymer element that the property handlers below
    write to. *)
Record ScannedPolymerElement : Type :=
  { tagName : option string;
    listeners : list Listener;
    behaviorAssignments : list Behavior.ScannedBehaviorAssignment;
    warnings : list Warning }.

(** [declaration.warnings.push(w)] and its siblings *)
Definition push_warning (w : Warning) : M ScannedPolymerElement unit :=
  modify (fun d =>
    {| tagName := tagName d; listeners := listeners d;
       behaviorAssignments := behaviorAssignments d;
       warnings := warnings d ++ [w] |}).

Definition push_behaviorAssignment (a : Behavior.ScannedBehaviorAssignment)
  : M ScannedPolymerElement unit :=
  modify (fun d =>
    {| tagName := tagName d; listeners := listeners d;
       behaviorAssignments := behaviorAssignments d ++ [a];
       warnings := warnings d |}).

Definition push_listener (l : Listener) : M ScannedPolymerElement unit :=
  modify (fun d =>
    {| tagName := tagName d; listeners := listeners d ++ [l];
       behaviorAssignments := behaviorAssignments d;
       warnings := warnings d |}).

(** ** Declaration property handlers *)

Inductive BehaviorAssignmentOrWarning : Type :=
| warning (warning : Warning)
| behaviorAssignment (assignment : Behavior.ScannedBehaviorAssignment).

(** [result.kind === 'warning' ? result.warning : undefined] and its dual *)
Definition warning_of (result : BehaviorAssignmentOrWarning) : option Warning :=
  match result with warning w => Some w | behaviorAssignment _ => None end.
Definition assignment_of (result : BehaviorAssignmentOrWarning)
  : option Behavior.ScannedBehaviorAssignment :=
  match result with warning _ => None | behaviorAssignment a => Some a end.

Section GetBehaviorAssignmentOrWarning.

(** [astValue.getIdentifierName], imported by the handlers: the dotted
    name of an identifier or member expression, if it has one. *)
Variable getIdentifierName : Node -> option string.

Definition getBehaviorAssignmentOrWarning
    (argNode : Node) (document : JavaScriptDocument)
  : BehaviorAssignmentOrWarning :=
  let behaviorName := getIdentifierName argNode in
  if negb (Js.truthy (Js.of_option behaviorName)) then
    warning
      {| code := "could-not-determine-behavior-name";
         message :=
           "Could not determine behavior name from expression of type "
           +:+ node_type argNode;
         severity := WARNING;
         sourceRange := sourceRangeForNode document argNode |}
  else
    behaviorAssignment
      {| Behavior.name := Js.as_string (Js.of_option behaviorName);
         Behavior.sourceRange := sourceRangeForNode document argNode |}.

End GetBehaviorAssignmentOrWarning.

Module declarationPropertyHandlers.
Section Handlers.

Variable getIdentifierName : Node -> option string.
Variable document : JavaScriptDocument.

Definition behaviors (node : Node) : M ScannedPolymerElement unit :=
  if negb (String.eqb (node_type node) "ArrayExpression") then
    mret tt
  else
    for_of (node_elements node) (fun element =>
      let result :=
        getBehaviorAssignmentOrWarning getIdentifierName element document in
      match result with
      | warning w => push_warning w
      | behaviorAssignment a => push_behaviorAssignment a
      end).

Definition listeners (node : Node) : M ScannedPolymerElement unit :=
  if negb (String.eqb (node_type node) "ObjectExpression") then
    push_warning
      {| code := "invalid-listeners-declaration";
         message := "`listeners` property should be an object expression";
         severity := ERROR;
         sourceRange := sourceRangeForNode document node |}
  else
    for_of (node_properties node) (fun p =>
      let evtName :=
        Js.or
          (Js.and (Js.Boolean (String.eqb (node_type (key p)) "Literal"))
                  (node_value (key p)))
          (Js.and (Js.Boolean (String.eqb (node_type (key p)) "Identifier"))
                  (node_name (key p))) in
      let handler :=
        Js.or (Js.Boolean (negb (String.eqb (node_type (value p)) "Literal")))
              (node_value (value p)) in
      if negb (String.eqb (Js.typeof evtName) "string")
         || negb (String.eqb (Js.typeof handler) "string")
      then mret tt
      else push_listener
             {| event := Js.as_string evtName;
                handler := Js.as_string handler |}).

End Handlers.
End declarationPropertyHandlers.

(** ** String helpers of the JavaScript runtime *)

(** [s.indexOf(sub)], [-1] when [sub] does not occur in [s]. *)
Definition indexOf (s sub : string) : Z :=
  match String.index 0 sub s with
  | Some n => Z.of_nat n
  | None => (-1)%Z
  end.

(** [s.includes(sub)], as chai's [assert.include] uses it on messages. *)
Definition includes (s sub : string) : bool :=
  negb (indexOf s sub =? -1)%Z.

(** The line feed and the double quote, as strings. *)
Definition newline : string := String (Ascii.ascii_of_nat 10) EmptyString.
Definition dquote : string := String (Ascii.ascii_of_nat 34) EmptyString.

(** ** Namespace scanner *)

Module Namespace.

Record ScannedNamespace (Annotation : Type) : Type :=
  { name : string;
    astNode : Node;
    jsdoc : Annotation;
    sourceRange : SourceRange }.
Arguments Build_ScannedNamespace {Annotation} _ _ _ _.
Arguments name {Annotation} _.
Arguments astNode {Annotation} _.
Arguments jsdoc {Annotation} _.
Arguments sourceRange {Annotation} _.

End Namespace.

(** The hooks of an ESTree visitor that the namespace scanner implements;
    each receives the node and its parent. *)
Record Visitor (St : Type) : Type :=
  { enterVariableDeclaration : Node -> Node -> M St unit;
    enterAssignmentExpression : Node -> Node -> M St unit }.
Arguments enterVariableDeclaration {St} _ _ _.
Arguments enterAssignmentExpression {St} _ _ _.

Module NamespaceScanner.
Section Scanner.

(** The JSDoc annotation type and the imported helpers:
    [ast-value.getIdentifierName], [esutil.getAttachedComment],
    [jsdoc.parseJsdoc] and [jsdoc.getTag]. *)
Context {Annotation : Type}.
Variable getIdentifierName : Node -> option string.
Variable getAttachedComment : Node -> option string.
Variable parseJsdoc : string -> Annotation.
Variable getTag : Annotation -> string -> string -> option string.

(** The visitor object.  [namespaces] is a [Set] of freshly allocated
    objects, so [add] never meets an element already present and the set
    is the sequence of insertions. *)
Record NamespaceVisitor : Type :=
  { namespaces : list (Namespace.ScannedNamespace Annotation);
    document : JavaScriptDocument }.

Definition namespaces_add (ns : Namespace.ScannedNamespace Annotation)
  : M NamespaceVisitor unit :=
  modify (fun this =>
    {| namespaces := namespaces this ++ [ns]; document := document this |}).

Definition _initNamespace (node : Node) (getName : unit -> option string)
  : M NamespaceVisitor unit :=
  let comment := getAttachedComment node in
  (* Quickly filter down to potential candidates. *)
  if negb (Js.truthy (Js.of_option comment))
     || (indexOf (Js.as_string (Js.of_option comment)) "@namespace" =? -1)%Z
  then mret tt
  else
    let comment := Js.as_string (Js.of_option comment) in
    let docs := parseJsdoc comment in
    let name :=
      Js.or (Js.of_option (getTag docs "namespace" "name"))
            (Js.of_option (getName tt)) in
    if negb (Js.truthy name) then mret tt
    else
      sourceRange ← gets (fun this => sourceRangeForNode (document this) node);
      match sourceRange with
      | None =>
          throw
            (Error ("Unable to determine sourceRange for @namespace: "
                    +:+ comment))
      | Some sourceRange =>
          namespaces_add
            (Namespace.Build_ScannedNamespace
               (Js.as_string name) node docs sourceRange)
      end.

(** Look for object declarations with @namespace in the docs.  The hook is
    dispatched on variable declarations only. *)
Definition enterVariableDeclaration (node _parent : Node)
  : M NamespaceVisitor unit :=
  match node with
  | VariableDeclaration declarations _ =>
      if negb (length declarations =? 1)%nat then
        mret tt (* Ambiguous. *)
      else
        _initNamespace node (fun _ =>
          match declarations with
          | d :: _ => getIdentifierName (id d)
          | [] => None
          end)
  | _ => mret tt
  end.

(** Look for object assignments with @namespace in the docs.  The hook is
    dispatched on assignment expressions only. *)
Definition enterAssignmentExpression (node parent : Node)
  : M NamespaceVisitor unit :=
  match node with
  | AssignmentExpression _ node_left _ =>
      _initNamespace parent (fun _ => getIdentifierName node_left)
  | _ => mret tt
  end.

(** The methods of the visitor, as the [Visitor] interface presents them. *)
Definition hooks : Visitor NamespaceVisitor :=
  Build_Visitor NamespaceVisitor
    enterVariableDeclaration enterAssignmentExpression.

(** [scan]: [visit] drives the hooks of the visitor it is given over the
    syntax tree; the scanner returns the namespaces collected. *)
Definition scan (document : JavaScriptDocument)
    (visit : Visitor NamespaceVisitor -> M NamespaceVisitor unit)
  : Result (list (Namespace.ScannedNamespace Annotation)) :=
  let visitor := {| namespaces := []; document := document |} in
  match visit hooks visitor with
  | (Ok _, visitor') => Ok (namespaces visitor')
  | (Throw e, _) => Throw e
  end.

End Scanner.
End NamespaceScanner.

(** ** Coordinate mapper *)

(** Where an inline document begins inside its container: a line and a
    column, the shape of a position. *)
Definition LocationOffset : Type := SourcePosition.

(** Modelled from the spec: [correctSourceRange] is imported from
    model/model, whose source is not available.  Section 4.1 of the
    specification: the offset's line is added to the position's line, and
    the offset's column is added to the column of positions on the first
    line of the inline document only. *)
Definition correctPosition (position : SourcePosition)
    (locationOffset : LocationOffset) : SourcePosition :=
  {| line := line position + line locationOffset;
     column := column position
               + (if (line position =? 0)%Z then column locationOffset
                  else 0) |}%Z.

(** Modelled from the spec: [correctSourceRange(range, offset?)] of
    model/model.  Without an offset the range is returned as it is; an
    undefined range stays undefined. *)
Definition correctSourceRange (sourceRange : option SourceRange)
    (locationOffset : option LocationOffset) : option SourceRange :=
  match locationOffset with
  | None => sourceRange
  | Some offset =>
      match sourceRange with
      | None => None
      | Some range =>
          Some {| file := file range;
                  start := correctPosition (start range) offset;
                  end_ := correctPosition (end_ range) offset |}
      end
  end.

(** ** TypeScript pre-parser *)

(** The part of the TypeScript compiler API that the pre-parser reads. *)
Module ts.

Inductive DiagnosticCategory : Type := Warning | Error | Message.

Definition DiagnosticCategory_eqb (a b : DiagnosticCategory) : bool :=
  match a, b with
  | Warning, Warning | Error, Error | Message, Message => true
  | _, _ => false
  end.

Record Diagnostic (MessageText : Type) : Type :=
  { category : DiagnosticCategory;
    start : Z;
    length : Z;
    messageText : MessageText }.
Arguments category {MessageText} _.
Arguments start {MessageText} _.
Arguments length {MessageText} _.
Arguments messageText {MessageText} _.

Record LineAndCharacter : Type := { line : Z; character : Z }.

(** [d.category === ts.DiagnosticCategory.Error] *)
Definition is_error {MessageText : Type} (d : Diagnostic MessageText)
  : bool :=
  DiagnosticCategory_eqb (category d) Error.

End ts.

Module TypeScriptPreparser.
Section Preparser.

(** The compiler's source files and message texts, the opaque node handle
    of an inline document, and the compiler functions called by [parse]. *)
Context {SourceFile MessageText AstNode : Type}.
Variable createSourceFile : string -> string -> SourceFile.
Variable parseDiagnostics :
  SourceFile -> option (list (ts.Diagnostic MessageText)).
Variable getLineAndCharacterOfPosition :
  SourceFile -> Z -> ts.LineAndCharacter.
Variable flattenDiagnosticMessageText : MessageText -> string -> string.

Record InlineDocInfo : Type :=
  { astNode : option AstNode;
    locationOffset : option LocationOffset }.

Record ParsedTypeScriptDocument : Type :=
  { doc_url : string;
    doc_contents : string;
    doc_ast : SourceFile;
    doc_locationOffset : option LocationOffset;
    doc_astNode : option AstNode;
    doc_isInline : bool }.

Definition parse (contents url : string) (inlineInfo : option InlineDocInfo)
  : Result ParsedTypeScriptDocument :=
  let isInline := bool_decide (is_Some inlineInfo) in
  let inlineInfo :=
    default {| astNode := None; locationOffset := None |} inlineInfo in
  let sourceFile := createSourceFile url contents in
  let diagnostics := default [] (parseDiagnostics sourceFile) in
  let parseError :=
    List.find
      (fun d => ts.DiagnosticCategory_eqb (ts.category d) ts.Error)
      diagnostics in
  match parseError with
  | Some parseError =>
      let start :=
        getLineAndCharacterOfPosition sourceFile (ts.start parseError) in
      let end_ :=
        getLineAndCharacterOfPosition sourceFile
          (ts.start parseError + ts.length parseError)%Z in
      Throw
        (WarningCarryingException
           {| code := "parse-error";
              severity := ERROR;
              message :=
                flattenDiagnosticMessageText
                  (ts.messageText parseError) newline;
              sourceRange :=
                correctSourceRange
                  (Some
                     {| file := url;
                        start := {| column := ts.character start;
                                    line := ts.line start |};
                        end_ := {| column := ts.character end_;
                                   line := ts.line end_ |} |})
                  (locationOffset inlineInfo) |})
  | None =>
      Ok {| doc_url := url;
            doc_contents := contents;
            doc_ast := sourceFile;
            doc_locationOffset := locationOffset inlineInfo;
            doc_astNode := astNode inlineInfo;
            doc_isInline := isInline |}
  end.

End Preparser.
End TypeScriptPreparser.

(** ** Scanned and resolved Polymer element mixins

    [resolve] copies an object with [Object.assign], which treats its
    arguments as bags of own properties: an object is the finite map from
    the names of its own properties to their values.  The values are
    copied as they are and never inspected. *)

Module PolymerElementMixin.
Section Mixin.

Context {Value : Type}.

(** [[]] and [new Set(['element-mixin', 'polymer-element-mixin'])] *)
Variable empty_array : Value.
Variable kinds_set : Value.

(** The own properties that the constructor of the superclass
    [ElementMixin] leaves on a new object. *)
Variable new_ElementMixin : gmap string Value.

(** [Object.assign(target, source)]: every own property of [source] is
    written to [target]. *)
Definition Object_assign (target source : gmap string Value)
  : gmap string Value :=
  source ∪ target.

(** [new PolymerElementMixin()]: the superclass constructor, then the
    field initialiser of [localIds], then the constructor body. *)
Definition new_PolymerElementMixin : gmap string Value :=
  let this := new_ElementMixin in
  let this := <["localIds" := empty_array]> this in
  let this := <["kinds" := kinds_set]> this in
  <["behaviorAssignments" := empty_array]> this.

Definition resolve {Document : Type} (this : gmap string Value)
    (_document : Document) : gmap string Value :=
  let element := new_PolymerElementMixin in
  Object_assign element this.

End Mixin.
End PolymerElementMixin.

(** ** Identifier names of expressions *)

Module AstValue.

(** Modelled from the spec: [getIdentifierName] of javascript/ast-value,
    whose source is not available.  Section 4.3 of the specification: the
    name of an identifier is the identifier; the name of a member access
    is the dotted path of its object and its property, where a subscript
    that is a string or an identifier becomes a path segment and any other
    subscript cannot be resolved. *)
Fixpoint getIdentifierName (node : Node) : option string :=
  match node with
  | Identifier name => Some name
  | MemberExpression object property computed =>
      let segment :=
        if computed then
          match property with
          | Literal (Js.Str s) => Some s
          | Identifier name => Some name
          | _ => None
          end
        else getIdentifierName property in
      match getIdentifierName object, segment with
      | Some o, Some p => Some (o +:+ "." +:+ p)
      | _, _ => None
      end
  | _ => None
  end.

End AstValue.

(** ** Validation of generated metadata *)

Module GenerateElements.

(** A candidate metadata object, as JSON. *)
#[warnings="-register-all"]
Inductive Json : Type :=
| JNull
| JBool (b : bool)
| JNumber (n : Z)
| JString (s : string)
| JArray (items : list Json)
| JObject (fields : list (string * Json)).

(** [object[name]] of an object with the given fields. *)
Fixpoint get (name : string) (fields : list (string * Json)) : option Json :=
  match fields with
  | [] => None
  | (k, v) :: rest => if String.eqb k name then Some v else get name rest
  end.

(** The pieces of [s] between the occurrences of [sep]. *)
Fixpoint split_on (sep : Ascii.ascii) (s : string) : list string :=
  match s with
  | EmptyString => [EmptyString]
  | String c s' =>
      if Ascii.eqb c sep then EmptyString :: split_on sep s'
      else
        match split_on sep s' with
        | [] => [String c EmptyString]
        | w :: ws => String c w :: ws
        end
  end.

Definition is_digit (c : Ascii.ascii) : bool :=
  ((48 <=? Ascii.N_of_ascii c) && (Ascii.N_of_ascii c <=? 57))%N.

Fixpoint digits_value (s : string) (acc : N) : option N :=
  match s with
  | EmptyString => Some acc
  | String c s' =>
      if is_digit c
      then digits_value s' (10 * acc + (Ascii.N_of_ascii c - 48))%N
      else None
  end.

(** A non-empty run of decimal digits. *)
Definition parse_number (s : string) : option N :=
  if String.eqb s "" then None else digits_value s 0%N.

(** ["<major>.<minor>.<patch>"] *)
Definition parse_version (s : string) : option (N * N * N) :=
  match split_on "."%char s with
  | [a; b; c] =>
      match parse_number a, parse_number b, parse_number c with
      | Some major, Some minor, Some patch => Some (major, minor, patch)
      | _, _, _ => None
      end
  | _ => None
  end.

(** The version that the validator knows.  The tests of [validateElements]
    call ["1.0.0"] a valid version and ["1.0.1"] a version from the
    future. *)
Definition known_major : N := 1.
Definition known_minor : N := 0.

(** Modelled from the spec: the semantic-version compatibility rule of
    section 4.5.  A version is accepted when its major and minor numbers
    are at most those of the known version; a higher major or minor
    number, or a malformed version string, is rejected. *)
Definition compatible_version (s : string) : bool :=
  match parse_version s with
  | Some (major, minor, _) =>
      ((major <=? known_major) && (minor <=? known_minor))%N
  | None => false
  end.

(** Modelled from the spec: the structural violations of a candidate
    against the fixed schema, in order.  The specification names two
    members of the metadata object (section 6): the required
    [schema_version], a string, and the optional [elements], an array;
    any other member is allowed. *)
Definition structural_violations (candidate : Json) : list string :=
  match candidate with
  | JObject fields =>
      match get "schema_version" fields with
      | None => ["requires property " +:+ dquote +:+ "schema_version" +:+ dquote]
      | Some (JString _) => []
      | Some _ => ["schema_version is not of a type(s) string"]
      end
      ++
      match get "elements" fields with
      | None | Some (JArray _) => []
      | Some _ => ["elements is not of a type(s) array"]
      end
  | _ => ["is not of a type(s) object"]
  end.

Definition schema_version (candidate : Json) : string :=
  match candidate with
  | JObject fields =>
      match get "schema_version" fields with
      | Some (JString s) => s
      | _ => ""
      end
  | _ => ""
  end.

(** Modelled from the spec: [validateElements] of generate-elements, whose
    source is not available; its tests are.  Section 4.5: the candidate
    is checked against the schema, and a [ValidationError] carries every
    violation found, in order; then the version rule is enforced, and a
    version it rejects is reported as an invalid [schema_version]. *)
Definition validateElements (candidate : Json) : Result unit :=
  match structural_violations candidate with
  | [] =>
      if compatible_version (schema_version candidate) then Ok tt
      else
        Throw (Error ("Invalid schema_version in AnalyzedPackage. Got "
                      +:+ schema_version candidate))
  | errors =>
      Throw (ValidationError
               (String.concat newline errors) errors)
  end.

End GenerateElements.

(** The message of what was thrown. *)
Definition exception_message (e : Exception) : string :=
  match e with
  | Error msg => msg
  | WarningCarryingException w => message w
  | ValidationError msg _ => msg
  end.

(** ** The listeners that an object literal declares statically

    The specification of the [listeners] handler, in its own words: a
    property whose key and value are both statically a string becomes a
    listener entry; a property with a computed key or a handler that is not
    a literal does not. *)

Definition static_key (p : Property) : option string :=
  if computed p then None
  else
    match key p with
    | Literal (Js.Str s) => Some s
    | Identifier s => Some s
    | _ => None
    end.

Definition static_handler (p : Property) : option string :=
  match value p with
  | Literal (Js.Str s) => Some s
  | _ => None
  end.

Definition spec_listener (p : Property) : option Listener :=
  match static_key p, static_handler p with
  | Some e, Some h => Some {| event := e; handler := h |}
  | _, _ => None
  end.

(** The same, except that a string literal key has to be non-empty. *)
Definition is_empty_literal (n : Node) : bool :=
  match n with Literal (Js.Str s) => String.eqb s "" | _ => false end.

Definition declared_listener (p : Property) : option Listener :=
  if is_empty_literal (key p) then None else spec_listener p.

(** A computed key written as a literal or as an identifier. *)
Definition computed_named_key (p : Property) : bool :=
  computed p &&
  match key p with Literal _ | Identifier _ => true | _ => false end.

(** What the loop of the handler extracts from one property.  The event
    name that it computes from a key is a string for an identifier and for a
    literal whose value is a non-empty string; the handler is a string for
    a literal whose value is a string. *)
Definition key_event (k : Node) : option string :=
  match k with
  | Literal (Js.Str e) => if String.eqb e "" then None else Some e
  | Identifier e => Some e
  | _ => None
  end.

Definition value_handler (v : Node) : option string :=
  match v with
  | Literal (Js.Str h) => Some h
  | _ => None
  end.

Definition extracted_listener (p : Property) : option Listener :=
  match key_event (key p), value_handler (value p) with
  | Some e, Some h => Some {| event := e; handler := h |}
  | _, _ => None
  end.

Definition with_listeners (d : ScannedPolymerElement) (ls : list Listener)
  : ScannedPolymerElement :=
  {| tagName := tagName d; listeners := ls;
     behaviorAssignments := behaviorAssignments d; warnings := warnings d |}.

Definition add_extracted (p : Property) (d : ScannedPolymerElement)
  : ScannedPolymerElement :=
  match extracted_listener p with
  | Some l => with_listeners d (listeners d ++ [l])
  | None => d
  end.

Definition with_behaviors (d : ScannedPolymerElement)
    (assignments : list Behavior.ScannedBehaviorAssignment)
    (ws : list Warning) : ScannedPolymerElement :=
  {| tagName := tagName d; listeners := listeners d;
     behaviorAssignments := assignments; warnings := ws |}.

(** What the loop of the [behaviors] handler does with one element. *)
Definition add_outcome (result : BehaviorAssignmentOrWarning)
    (d : ScannedPolymerElement) : ScannedPolymerElement :=
  match result with
  | warning w => with_behaviors d (behaviorAssignments d) (warnings d ++ [w])
  | behaviorAssignment a =>
      with_behaviors d (behaviorAssignments d ++ [a]) (warnings d)
  end.

(** ** Sample inputs *)

(** A document without range information and a declaration that nothing has
    been written to. *)
Definition no_ranges : JavaScriptDocument :=
  {| sourceRangeForNode := fun _ => None |}.

Definition empty_declaration : ScannedPolymerElement :=
  {| tagName := None; listeners := []; behaviorAssignments := [];
     warnings := [] |}.

(** [{'': 'onTap'}], [{tap: ''}] and [{tap: 'onTap'}] *)
Definition empty_key_entry : Property :=
  Build_Property (Literal (Js.Str "")) (Literal (Js.Str "onTap"))
                 false false false.
Definition empty_handler_entry : Property :=
  Build_Property (Identifier "tap") (Literal (Js.Str "")) false false false.
Definition tap_entry : Property :=
  Build_Property (Identifier "tap") (Literal (Js.Str "onTap"))
                 false false false.

(** [{[tap]: 'onTap'}], whose event name is the value of the variable [tap]
    at run time *)
Definition computed_identifier_entry : Property :=
  Build_Property (Identifier "tap") (Literal (Js.Str "onTap"))
                 true false false.

(** [var Foo = {}] and [var Foo = {}, Bar = {}], statements of a program *)
Definition var_Foo : Node :=
  VariableDeclaration
    [Build_VariableDeclarator (Identifier "Foo") (Some (ObjectExpression []))]
    "var".
Definition var_Foo_Bar : Node :=
  VariableDeclaration
    [Build_VariableDeclarator (Identifier "Foo") (Some (ObjectExpression []));
     Build_VariableDeclarator (Identifier "Bar") (Some (ObjectExpression []))]
    "var".
Definition program : Node := OtherNode "Program".

(** [Foo.Bar = {}] as an expression statement *)
Definition assign_Foo_Bar : Node :=
  AssignmentExpression "="
    (MemberExpression (Identifier "Foo") (Identifier "Bar") false)
    (ObjectExpression []).

(** Every node carries a comment with the text [* @namespace ]; annotations
    are the comment text, in which no tag has a name. *)
Definition marked (_ : Node) : option string := Some "* @namespace ".
Definition comment_text (comment : string) : string := comment.
Definition no_tag (_ : string) (_ _ : string) : option string := None.

(** A document that places every node on its second line. *)
Definition second_line : SourceRange :=
  {| file := "namespace-unnamed.js";
     start := {| line := 1; column := 0 |};
     end_ := {| line := 1; column := 13 |} |}.
Definition one_statement : JavaScriptDocument :=
  {| sourceRangeForNode := fun _ => Some second_line |}.

(** A parser stub for [parse]: a source file is its list of diagnostics,
    positions are on the first line, and a message text is a string.  The
    file [broken.ts] has a warning followed by two errors. *)
Definition sample_diagnostics : list (ts.Diagnostic string) :=
  [ {| ts.category := ts.Warning; ts.start := 0; ts.length := 1;
       ts.messageText := "unused" |};
    {| ts.category := ts.Error; ts.start := 4; ts.length := 2;
       ts.messageText := "';' expected." |};
    {| ts.category := ts.Error; ts.start := 9; ts.length := 1;
       ts.messageText := "Expression expected." |} ].
Definition sample_createSourceFile (url _ : string)
  : list (ts.Diagnostic string) :=
  if String.eqb url "broken.ts" then sample_diagnostics else [].
Definition sample_parseDiagnostics (sourceFile : list (ts.Diagnostic string))
  : option (list (ts.Diagnostic string)) := Some sourceFile.
Definition first_line (_ : list (ts.Diagnostic string)) (position : Z)
  : ts.LineAndCharacter :=
  {| ts.line := 0; ts.character := position |}.
Definition flat_text (text _ : string) : string := text.

(** The own properties of a scanned mixin with one property, one listener
    and no behavior reference, over values that are lists of names. *)
Definition sample_mixin : gmap string (list string) :=
  <["properties" := ["simple"]]>
    (<["observers" := []]>
       (<["listeners" := ["tap"]]>
          (<["behaviorAssignments" := []]>
             (<["pseudo" := []]> ∅)))).

(** [{elements: [], schema_version: v}], with or without a member that the
    schema does not know *)
Definition metadata (version : string) : GenerateElements.Json :=
  GenerateElements.JObject
    [("elements", GenerateElements.JArray []);
     ("schema_version", GenerateElements.JString version)].
Definition metadata_with_new_field (version : string) : GenerateElements.Json :=
  GenerateElements.JObject
    [("elements", GenerateElements.JArray []);
     ("schema_version", GenerateElements.JString version);
     ("new_field", GenerateElements.JString "stuff here")].

(** ** The other declaration property handlers

    [is] and [observers], the handlers of [declarationPropertyHandlers]
    beside [behaviors] and [listeners].  [is] converts the value of a
    literal to a string; the conversion of a number is the one of the
    JavaScript runtime.  [observers] writes to [declaration.observers] only,
    which is its state here; it calls [astValue.expressionToValue] and uses
    the constant [astValue.CANT_CONVERT]. *)

Record Observer (LiteralValue : Type) : Type :=
  { javascriptNode : Node; expression : LiteralValue }.
Arguments Build_Observer {LiteralValue} _ _.
Arguments javascriptNode {LiteralValue} _.
Arguments expression {LiteralValue} _.

(** [declaration.tagName = t] *)
Definition set_tagName (t : string) : M ScannedPolymerElement unit :=
  modify (fun d =>
    {| tagName := Some t; listeners := listeners d;
       behaviorAssignments := behaviorAssignments d;
       warnings := warnings d |}).

Module PropertyHandlers.
Section Handlers.

Context {LiteralValue : Type}.
Variable number_to_string : spec_float -> string.
Variable expressionToValue : Node -> option LiteralValue.
Variable CANT_CONVERT : LiteralValue.

(** ToString, as [+] applies it to the right operand of ['' + v].  A regular
    expression prints as its source between slashes, then its flags. *)
Definition to_string (v : Js.Value) : string :=
  match v with
  | Js.Undefined => "undefined"
  | Js.Null => "null"
  | Js.Boolean true => "true"
  | Js.Boolean false => "false"
  | Js.Number x => number_to_string x
  | Js.Str s => s
  | Js.RegExp source flags => "/" +:+ source +:+ "/" +:+ flags
  end.

Definition is_ (node : Node) : M ScannedPolymerElement unit :=
  if String.eqb (node_type node) "Literal" then
    set_tagName ("" +:+ to_string (node_value node))
  else mret tt.

Definition observers (node : Node) : M (list (Observer LiteralValue)) unit :=
  if negb (String.eqb (node_type node) "ArrayExpression") then
    mret tt
  else
    for_of (node_elements node) (fun element =>
      let v := expressionToValue element in
      let v := match v with None => CANT_CONVERT | Some v => v end in
      modify (fun observers =>
        (observers ++ [{| javascriptNode := element; expression := v |}])%list)).

End Handlers.
End PropertyHandlers.

(** ** Traversals as sequences of hook calls

    A traversal of a syntax tree calls the hooks of the visitor it drives,
    one node after the other.  This is the [visit] of a traversal that makes
    the given calls. *)

Inductive HookCall : Type :=
| EnterVariableDeclaration (node parent : Node)
| EnterAssignmentExpression (node parent : Node).

Definition dispatch {St : Type} (v : Visitor St) (call : HookCall)
  : M St unit :=
  match call with
  | EnterVariableDeclaration node parent =>
      enterVariableDeclaration v node parent
  | EnterAssignmentExpression node parent =>
      enterAssignmentExpression v node parent
  end.

Definition visit_calls {St : Type} (calls : list HookCall) (v : Visitor St)
  : M St unit :=
  for_of calls (dispatch v).

(** The node whose comment and range a hook call looks at: the declaration
    itself, the parent of an assignment. *)
Definition candidate (call : HookCall) : Node :=
  match call with
  | EnterVariableDeclaration node _ => node
  | EnterAssignmentExpression _ parent => parent
  end.

(** The results of scanning two traversals one after the other: the
    namespaces of both, or the first failure. *)
Definition append_results {A : Type} (r1 r2 : Result (list A))
  : Result (list A) :=
  match r1 with
  | Throw e => Throw e
  | Ok l1 =>
      match r2 with
      | Throw e => Throw e
      | Ok l2 => Ok (l1 ++ l2)%list
      end
  end.

(** ** The scanned mixin and the metadata of a property

    The constructor of [ScannedPolymerElementMixin] and
    [PolymerElementMixin.emitPropertyMetadata], over objects as finite maps
    of their own properties. *)

Module ScannedPolymerElementMixin.
Section Mixin.

Context {Value : Type}.

(** [[]] and [false] *)
Variable empty_array : Value.
Variable false_value : Value.

(** The own properties that the constructor of the superclass
    [ScannedElementMixin] leaves on a new object. *)
Variable new_ScannedElementMixin : gmap string Value.

(** Truthiness of a value, the elements of an array value, and
    [addProperty(this, prop)] of polymer-element, with the object it has
    mutated as its result. *)
Variable truthy : Value -> bool.
Variable array_elements : Value -> list Value.
Variable addProperty : gmap string Value -> Value -> gmap string Value.

(** [new ScannedPolymerElementMixin(options)]: the superclass constructor,
    the field initialisers in the order of their declaration, then the
    constructor body. *)
Definition new_ScannedPolymerElementMixin (options : option (gmap string Value))
  : gmap string Value :=
  let this := new_ScannedElementMixin in
  let this := <["properties" := empty_array]> this in
  let this := <["observers" := empty_array]> this in
  let this := <["listeners" := empty_array]> this in
  let this := <["behaviorAssignments" := empty_array]> this in
  let this := <["pseudo" := false_value]> this in
  let optionsCopy :=
    PolymerElementMixin.Object_assign ∅ (default ∅ options) in
  let optionsCopy := delete "properties" optionsCopy in
  let this := PolymerElementMixin.Object_assign this optionsCopy in
  match options ≫= (fun o => o !! "properties") with
  | Some properties =>
      if truthy properties
      then foldl addProperty this (array_elements properties)
      else this
  | None => this
  end.

(** [emitPropertyMetadata(property)]: the object [{polymer: polymerMetadata}] *)
Definition emitPropertyMetadata (property : gmap string Value)
  : gmap string (gmap string Value) :=
  let polymerMetadata : gmap string Value := ∅ in
  let polymerMetadataFields := ["notify"; "observer"; "readOnly"] in
  let polymerMetadata :=
    foldl (fun polymerMetadata field =>
             match property !! field with
             | Some v => <[field := v]> polymerMetadata
             | None => polymerMetadata
             end)
          polymerMetadata polymerMetadataFields in
  {["polymer" := polymerMetadata]}.

End Mixin.
End ScannedPolymerElementMixin.

Definition with_tagName (d : ScannedPolymerElement) (t : option string)
  : ScannedPolymerElement :=
  {| tagName := t; listeners := listeners d;
     behaviorAssignments := behaviorAssignments d; warnings := warnings d |}.

(** What a property has to look like for the listener [l] to be extracted
    from it. *)
Definition declares (p : Property) (l : Listener) : Prop :=
  value p = Literal (Js.Str (handler l))
  /\ (key p = Identifier (event l)
      \/ (key p = Literal (Js.Str (event l)) /\ event l <> "")).

(** The calls that lead a hook of the namespace scanner to
    [_initNamespace]: a declaration with one declarator, and an
    assignment. *)
Definition reaches_initNamespace (call : HookCall) : bool :=
  match call with
  | EnterVariableDeclaration (VariableDeclaration [_] _) _ => true
  | EnterAssignmentExpression (AssignmentExpression _ _ _) _ => true
  | _ => false
  end.

(** The name that the hook falls back to when the comment has no name tag:
    that of the declared identifier, or of the left-hand side. *)
Definition declared_name (getIdentifierName : Node -> option string)
    (call : HookCall) : option string :=
  match call with
  | EnterVariableDeclaration (VariableDeclaration (d :: _) _) _ =>
      getIdentifierName (id d)
  | EnterAssignmentExpression (AssignmentExpression _ lhs _) _ =>
      getIdentifierName lhs
  | _ => None
  end.

(** The visitor after [added] has been added to its namespaces. *)
Definition add_namespaces {Annotation : Type}
    (this : @NamespaceScanner.NamespaceVisitor Annotation)
    (added : list (Namespace.ScannedNamespace Annotation))
  : @NamespaceScanner.NamespaceVisitor Annotation :=
  {| NamespaceScanner.namespaces := NamespaceScanner.namespaces this ++ added;
     NamespaceScanner.document := NamespaceScanner.document this |}.

(** A namespace found at a call: its node is the candidate of the call, its
    range is the one the document has for that node, its annotation is the
    parsed comment of the node, which has the marker, and it has a name. *)
Definition found_at {Annotation : Type}
    (getAttachedComment : Node -> option string)
    (parseJsdoc : string -> Annotation)
    (document : JavaScriptDocument) (call : HookCall)
    (ns : Namespace.ScannedNamespace Annotation) : Prop :=
  Namespace.astNode ns = candidate call
  /\ sourceRangeForNode document (candidate call)
     = Some (Namespace.sourceRange ns)
  /\ Namespace.name ns <> ""
  /\ exists comment,
       getAttachedComment (candidate call) = Some comment
       /\ includes comment "@namespace" = true
       /\ Namespace.jsdoc ns = parseJsdoc comment.

(** The fields of a property that [emitPropertyMetadata] looks for. *)
Definition polymerMetadataFields : list string :=
  ["notify"; "observer"; "readOnly"].

(** Sample collaborators of the constructor of a scanned mixin, over values
    that are lists of names: every value is truthy, the elements of an
    array are its names, and [addProperty] appends a property to the
    [properties] of the object. *)
Definition sample_elements (v : list string) : list (list string) :=
  map (fun name => [name]) v.
Definition sample_addProperty (this : gmap string (list string))
    (prop : list string) : gmap string (list string) :=
  <["properties" := (default [] (this !! "properties") ++ prop)%list]> this.
Definition sample_options : gmap string (list string) :=
  <["properties" := ["simple"; "deep"]]> (<["listeners" := ["tap"]]> ∅).

(** * Properties *)

(** ** Loops over a mutated object *)

Section Loops.

Context {St A : Type}.

Lemma for_of_app (xs ys : list A) (body : A -> M St unit) (st : St) :
  for_of (xs ++ ys) body st = (for_of xs body;; for_of ys body) st.
Proof.
  revert st. induction xs as [|x xs IH]; intros st; simpl.
  - unfold mbind, M_bind, mret, M_ret. reflexivity.
  - unfold mbind, M_bind in *. destruct (body x st) as [[[]|e] st']; [|reflexivity].
    apply IH.
Qed.

(** A loop whose body only updates the object never throws, and folds the
    update over the elements. *)
Lemma for_of_modify (g : A -> St -> St) (body : A -> M St unit) :
  (forall x st, body x st = (Ok tt, g x st)) ->
  forall xs st, for_of xs body st = (Ok tt, foldl (fun s x => g x s) st xs).
Proof.
  intros Hbody xs. induction xs as [|x xs IH]; intros st; simpl.
  - reflexivity.
  - unfold mbind, M_bind. rewrite Hbody. apply IH.
Qed.

End Loops.

(** ** The [listeners] handler *)

Lemma evtName_cases (k : Node) :
  let evtName :=
    Js.or (Js.and (Js.Boolean (String.eqb (node_type k) "Literal"))
                  (node_value k))
          (Js.and (Js.Boolean (String.eqb (node_type k) "Identifier"))
                  (node_name k)) in
  match key_event k with
  | Some e => evtName = Js.Str e
  | None => String.eqb (Js.typeof evtName) "string" = false
  end.
Proof.
  destruct k as [e|v| | | | | | | |t]; simpl; try reflexivity.
  - destruct v as [| |b|x|e|]; simpl; try reflexivity.
    + destruct b; reflexivity.
    + destruct x; reflexivity.
    + unfold Js.or, Js.and; simpl.
      destruct (String.eqb e "") eqn:He; reflexivity.
  - destruct (String.eqb t "Literal"), (String.eqb t "Identifier");
      reflexivity.
Qed.

Lemma handler_cases (v : Node) :
  let handler :=
    Js.or (Js.Boolean (negb (String.eqb (node_type v) "Literal")))
          (node_value v) in
  match value_handler v with
  | Some h => handler = Js.Str h
  | None => String.eqb (Js.typeof handler) "string" = false
  end.
Proof.
  destruct v as [|v| | | | | | | |t]; simpl; try reflexivity.
  - destruct v; reflexivity.
  - destruct (String.eqb t "Literal"); reflexivity.
Qed.

Section ListenersHandler.

Variable document : JavaScriptDocument.

Abbreviation listeners_of := (declarationPropertyHandlers.listeners document).

Lemma with_listeners_id d : with_listeners d (listeners d) = d.
Proof. destruct d; reflexivity. Qed.

Lemma foldl_add_extracted ps d :
  foldl (fun s p => add_extracted p s) d ps
  = with_listeners d (listeners d ++ omap extracted_listener ps).
Proof.
  revert d. induction ps as [|p ps IH]; intros d; simpl.
  - rewrite app_nil_r. symmetry. apply with_listeners_id.
  - rewrite IH. unfold add_extracted.
    destruct (extracted_listener p) as [l|]; simpl.
    + unfold with_listeners; simpl. rewrite <- app_assoc. reflexivity.
    + reflexivity.
Qed.

(** The handler never throws on an object literal and adds nothing but
    listeners. *)
Lemma listeners_object_expression ps d :
  listeners_of (ObjectExpression ps) d
  = (Ok tt, with_listeners d (listeners d ++ omap extracted_listener ps)).
Proof.
  unfold declarationPropertyHandlers.listeners. simpl.
  rewrite (for_of_modify add_extracted).
  - rewrite foldl_add_extracted. reflexivity.
  - clear. intros p st. unfold add_extracted, extracted_listener.
    pose proof (evtName_cases (key p)) as Hk.
    pose proof (handler_cases (value p)) as Hv.
    cbv zeta in Hk, Hv.
    destruct (key_event (key p)) as [e|].
    + rewrite Hk. simpl.
      destruct (value_handler (value p)) as [h|].
      * rewrite Hv. reflexivity.
      * rewrite Hv. reflexivity.
    + rewrite Hk. reflexivity.
Qed.

End ListenersHandler.

Lemma declared_listener_extracted (p : Property) :
  computed_named_key p = false ->
  extracted_listener p = declared_listener p.
Proof.
  destruct p as [k v c s m].
  unfold computed_named_key, extracted_listener, declared_listener,
    spec_listener, static_key, static_handler; simpl.
  intros Hc.
  destruct k as [e|kv| | | | | | | |]; simpl in *;
    try (destruct c; reflexivity).
  - rewrite andb_true_r in Hc; subst c. reflexivity.
  - rewrite andb_true_r in Hc; subst c.
    destruct kv as [| | | |e|]; simpl; try reflexivity.
    destruct (String.eqb e ""); reflexivity.
Qed.

(** C1 (as amended).  On an object literal in which no computed key is
    written as a literal or as an identifier, the [listeners] handler
    returns normally and leaves the declaration as it was except for its
    listeners, to which it appends, in declaration order, one entry for each
    property whose key and value are both statically a string, the key not
    being the empty string literal.  Every other property is dropped, and
    the warnings of the declaration are unchanged. *)
Theorem listeners_static_entries
    (document : JavaScriptDocument) (ps : list Property)
    (d : ScannedPolymerElement) :
  Forall (fun p => computed_named_key p = false) ps ->
  declarationPropertyHandlers.listeners document (ObjectExpression ps) d
  = (Ok tt, with_listeners d (listeners d ++ omap declared_listener ps))
  /\ warnings (with_listeners d (listeners d ++ omap declared_listener ps))
     = warnings d.
Proof.
  intros Hps. split; [|reflexivity].
  rewrite listeners_object_expression.
  assert (omap extracted_listener ps = omap declared_listener ps) as ->;
    [|reflexivity].
  induction Hps as [|p ps Hp _ IH]; [reflexivity|].
  cbn. rewrite (declared_listener_extracted p Hp).
  cbn in IH. rewrite IH. reflexivity.
Qed.

Lemma listeners_static_entries_witness :
  declarationPropertyHandlers.listeners no_ranges
    (ObjectExpression [tap_entry; empty_key_entry; empty_handler_entry])
    empty_declaration
  = (Ok tt,
     with_listeners empty_declaration
       [ {| event := "tap"; handler := "onTap" |};
         {| event := "tap"; handler := "" |} ]).
Proof.
  refine (proj1 (listeners_static_entries no_ranges
                    [tap_entry; empty_key_entry; empty_handler_entry]
                    empty_declaration _)).
  repeat constructor.
Defined.

(** C1 (as stated) fails.  The entry [{'': 'onTap'}] has a key and a value
    that are both statically a string, so that the statement asks for the
    listener of the event [''], and the handler extracts no listener from
    it. *)
Lemma listeners_drops_empty_key :
  omap spec_listener [empty_key_entry]
  = [{| event := ""; handler := "onTap" |}]
  /\ declarationPropertyHandlers.listeners no_ranges
       (ObjectExpression [empty_key_entry]) empty_declaration
     = (Ok tt, empty_declaration)
  /\ declarationPropertyHandlers.listeners no_ranges
       (ObjectExpression [empty_key_entry]) empty_declaration
     <> (Ok tt,
         with_listeners empty_declaration
           (listeners empty_declaration
            ++ omap spec_listener [empty_key_entry])).
Proof.
  split; [reflexivity|]. split; [reflexivity|].
  vm_compute. discriminate.
Qed.

(** The handler does not look at the [computed] flag of a property: it
    takes the identifier of a computed key [[tap]] for the event name. *)
Example listeners_computed_identifier_key :
  declarationPropertyHandlers.listeners no_ranges
    (ObjectExpression [computed_identifier_entry]) empty_declaration
  = (Ok tt,
     with_listeners empty_declaration
       [ {| event := "tap"; handler := "onTap" |} ]).
Proof. reflexivity. Qed.

(** C10.  In a [listeners] object literal, an entry whose key is a literal
    with a falsy value, the empty string among them, adds no listener,
    whatever string its handler is: the literal behaves as if the entry were
    not there.  An entry whose handler is the empty string literal is kept
    when its key is a non-empty string literal or an identifier. *)
Theorem listeners_falsy_key_dropped_empty_handler_kept
    (document : JavaScriptDocument) (ps1 ps2 : list Property)
    (d : ScannedPolymerElement) (c s m : bool) :
  (forall (v : Js.Value) (h : string),
     Js.truthy v = false ->
     declarationPropertyHandlers.listeners document
       (ObjectExpression
          (ps1 ++ Build_Property (Literal v) (Literal (Js.Str h)) c s m :: ps2))
       d
     = declarationPropertyHandlers.listeners document
         (ObjectExpression (ps1 ++ ps2)) d)
  /\
  (forall e : string,
     e <> "" ->
     declarationPropertyHandlers.listeners document
       (ObjectExpression
          [Build_Property (Literal (Js.Str e)) (Literal (Js.Str "")) c s m])
       d
     = (Ok tt,
        with_listeners d (listeners d ++ [{| event := e; handler := "" |}])))
  /\
  (forall e : string,
     declarationPropertyHandlers.listeners document
       (ObjectExpression
          [Build_Property (Identifier e) (Literal (Js.Str "")) c s m])
       d
     = (Ok tt,
        with_listeners d (listeners d ++ [{| event := e; handler := "" |}]))).
Proof.
  split.
  - intros v h Hv. rewrite !listeners_object_expression.
    rewrite !omap_app.
    assert (extracted_listener
              (Build_Property (Literal v) (Literal (Js.Str h)) c s m) = None)
      as Hnone.
    { unfold extracted_listener; simpl.
      destruct v as [| | | |e|]; try reflexivity.
      simpl in Hv. apply negb_false_iff in Hv. rewrite Hv. reflexivity. }
    cbn. rewrite Hnone. reflexivity.
  - split.
    + intros e He. rewrite listeners_object_expression.
      unfold extracted_listener; cbn.
      apply String.eqb_neq in He. rewrite He. reflexivity.
    + intros e. rewrite listeners_object_expression. reflexivity.
Qed.

Lemma listeners_falsy_key_dropped_empty_handler_kept_witness :
  declarationPropertyHandlers.listeners no_ranges
    (ObjectExpression [tap_entry; empty_key_entry]) empty_declaration
  = declarationPropertyHandlers.listeners no_ranges
      (ObjectExpression [tap_entry]) empty_declaration
  /\
  declarationPropertyHandlers.listeners no_ranges
    (ObjectExpression
       [Build_Property (Literal (Js.Str "tap")) (Literal (Js.Str ""))
                       false false false])
    empty_declaration
  = (Ok tt,
     with_listeners empty_declaration [{| event := "tap"; handler := "" |}]).
Proof.
  pose proof (listeners_falsy_key_dropped_empty_handler_kept
                no_ranges [tap_entry] [] empty_declaration false false false)
    as (Hdropped & Hkept & _).
  split.
  - apply (Hdropped (Js.Str "") "onTap"). reflexivity.
  - apply (Hkept "tap"). discriminate.
Defined.

(** A [listeners] value that is not an object literal is reported by a
    warning of severity [ERROR], and nothing is extracted. *)
Lemma listeners_not_object_expression
    (document : JavaScriptDocument) (node : Node)
    (d : ScannedPolymerElement) :
  node_type node <> "ObjectExpression" ->
  declarationPropertyHandlers.listeners document node d
  = (Ok tt,
     with_behaviors d (behaviorAssignments d)
       (warnings d
        ++ [{| code := "invalid-listeners-declaration";
               message :=
                 "`listeners` property should be an object expression";
               severity := ERROR;
               sourceRange := sourceRangeForNode document node |}])).
Proof.
  intros Htype. unfold declarationPropertyHandlers.listeners.
  apply String.eqb_neq in Htype. rewrite Htype. reflexivity.
Qed.

(** ** The [behaviors] handler *)

(** A [behaviors] value that is not an array literal is ignored. *)
Lemma behaviors_not_array_expression
    (getIdentifierName : Node -> option string)
    (document : JavaScriptDocument) (node : Node)
    (d : ScannedPolymerElement) :
  node_type node <> "ArrayExpression" ->
  declarationPropertyHandlers.behaviors getIdentifierName document node d
  = (Ok tt, d).
Proof.
  intros Htype. unfold declarationPropertyHandlers.behaviors.
  apply String.eqb_neq in Htype. rewrite Htype. reflexivity.
Qed.

Lemma foldl_add_outcome
    (outcome : Node -> BehaviorAssignmentOrWarning) (elements : list Node)
    (d : ScannedPolymerElement) :
  foldl (fun s e => add_outcome (outcome e) s) d elements
  = with_behaviors d
      (behaviorAssignments d ++ omap (fun e => assignment_of (outcome e)) elements)
      (warnings d ++ omap (fun e => warning_of (outcome e)) elements).
Proof.
  revert d. induction elements as [|e es IH]; intros d.
  - cbn. rewrite !app_nil_r. destruct d; reflexivity.
  - cbn. cbn in IH. rewrite IH.
    destruct (outcome e) as [w|a]; cbn.
    + unfold with_behaviors; cbn. rewrite <- app_assoc. reflexivity.
    + unfold with_behaviors; cbn. rewrite <- app_assoc. reflexivity.
Qed.

Lemma outcomes_partition
    (outcome : Node -> BehaviorAssignmentOrWarning) (elements : list Node) :
  (length (omap (fun e => assignment_of (outcome e)) elements)
   + length (omap (fun e => warning_of (outcome e)) elements)
   = length elements)%nat.
Proof.
  induction elements as [|e es IH]; [reflexivity|].
  cbn. cbn in IH. destruct (outcome e); cbn; lia.
Qed.

(** C2.  For every element of a [behaviors] array literal the extraction has
    exactly one of two outcomes: a behavior assignment named by the
    identifier name of the element, when there is one, or else a warning
    with the code [could-not-determine-behavior-name].  The handler returns
    normally, whatever the elements are, after pushing, in order, each
    assignment onto the behavior assignments of the declaration and each
    warning onto its warnings. *)
Theorem behaviors_assignment_or_warning
    (getIdentifierName : Node -> option string)
    (document : JavaScriptDocument) (elements : list Node)
    (d : ScannedPolymerElement) :
  let outcome e := getBehaviorAssignmentOrWarning getIdentifierName e document in
  (forall e,
     (exists n,
        getIdentifierName e = Some n /\ n <> ""
        /\ outcome e =
           behaviorAssignment
             {| Behavior.name := n;
                Behavior.sourceRange := sourceRangeForNode document e |})
     \/ (exists w,
           (getIdentifierName e = None \/ getIdentifierName e = Some "")
           /\ outcome e = warning w
           /\ code w = "could-not-determine-behavior-name"
           /\ severity w = WARNING))
  /\ declarationPropertyHandlers.behaviors getIdentifierName document
       (ArrayExpression elements) d
     = (Ok tt,
        with_behaviors d
          (behaviorAssignments d
           ++ omap (fun e => assignment_of (outcome e)) elements)
          (warnings d ++ omap (fun e => warning_of (outcome e)) elements))
  /\ (length (omap (fun e => assignment_of (outcome e)) elements)
      + length (omap (fun e => warning_of (outcome e)) elements)
      = length elements)%nat.
Proof.
  intros outcome. split; [|split].
  - intros e. unfold outcome, getBehaviorAssignmentOrWarning.
    destruct (getIdentifierName e) as [n|]; cbn.
    + destruct (String.eqb_spec n "") as [->|Hn]; cbn.
      * right. eexists. split; [right; reflexivity|].
        repeat split; reflexivity.
      * left. exists n. split; [reflexivity|]. split; [exact Hn|reflexivity].
    + right. eexists. split; [left; reflexivity|].
      repeat split; reflexivity.
  - unfold declarationPropertyHandlers.behaviors. cbn.
    rewrite (for_of_modify (fun e => add_outcome (outcome e))).
    + apply f_equal. apply foldl_add_outcome.
    + intros e st. unfold outcome.
      destruct (getBehaviorAssignmentOrWarning getIdentifierName e document);
        reflexivity.
  - apply outcomes_partition.
Qed.

(** ** The namespace scanner *)

Section NamespaceScannerProperties.

Context {Annotation : Type}.
Variable getIdentifierName : Node -> option string.
Variable getAttachedComment : Node -> option string.
Variable parseJsdoc : string -> Annotation.
Variable getTag : Annotation -> string -> string -> option string.

Abbreviation initNamespace :=
  (NamespaceScanner._initNamespace
     getAttachedComment parseJsdoc getTag).
Abbreviation namespaceVisitor :=
  (NamespaceScanner.hooks
     getIdentifierName getAttachedComment parseJsdoc getTag).
Abbreviation scanNamespaces :=
  (NamespaceScanner.scan
     getIdentifierName getAttachedComment parseJsdoc getTag).

(** A comment with the marker passes the quick filter. *)
Lemma marker_passes_filter (comment : string) :
  includes comment "@namespace" = true ->
  negb (Js.truthy (Js.of_option (Some comment)))
  || (indexOf (Js.as_string (Js.of_option (Some comment))) "@namespace"
      =? -1)%Z
  = false.
Proof.
  intros Hmarker. simpl.
  destruct comment as [|c comment']; [discriminate Hmarker|].
  unfold includes in Hmarker. apply negb_true_iff in Hmarker.
  rewrite Hmarker. reflexivity.
Qed.

(** A candidate with a name: the range lookup decides between a new
    namespace and a thrown error. *)
Lemma initNamespace_named
    (node : Node) (getName : unit -> option string) (comment : string)
    (this : NamespaceScanner.NamespaceVisitor) :
  getAttachedComment node = Some comment ->
  includes comment "@namespace" = true ->
  let name :=
    Js.or (Js.of_option (getTag (parseJsdoc comment) "namespace" "name"))
          (Js.of_option (getName tt)) in
  Js.truthy name = true ->
  initNamespace node getName this =
  match sourceRangeForNode (NamespaceScanner.document this) node with
  | None =>
      (Throw (Error ("Unable to determine sourceRange for @namespace: "
                     +:+ comment)), this)
  | Some range =>
      (Ok tt,
       {| NamespaceScanner.namespaces :=
            NamespaceScanner.namespaces this
            ++ [Namespace.Build_ScannedNamespace
                  (Js.as_string name) node (parseJsdoc comment) range];
          NamespaceScanner.document := NamespaceScanner.document this |})
  end.
Proof.
  intros Hcomment Hmarker name Hname.
  unfold NamespaceScanner._initNamespace.
  rewrite Hcomment, (marker_passes_filter comment Hmarker).
  cbn [Js.of_option Js.as_string]. fold name. rewrite Hname.
  cbn [negb]. unfold mbind, M_bind, gets.
  destruct (sourceRangeForNode (NamespaceScanner.document this) node);
    reflexivity.
Qed.

(** C6.  A variable declaration with two or more declarators leaves the
    visitor as it was, whatever comments are attached to it: scanning the
    statement yields no namespace, and within any traversal the statement
    contributes none. *)
Theorem multiple_declarators_skipped
    (document : JavaScriptDocument)
    (declarations : list VariableDeclarator) (kind : string)
    (parent : Node) :
  (2 <= length declarations)%nat ->
  let statement := VariableDeclaration declarations kind in
  (forall this,
     enterVariableDeclaration namespaceVisitor statement parent this
     = (Ok tt, this))
  /\ scanNamespaces document
       (fun v => enterVariableDeclaration v statement parent)
     = Ok []
  /\ (forall before after :
          Visitor NamespaceScanner.NamespaceVisitor ->
          M NamespaceScanner.NamespaceVisitor unit,
        scanNamespaces document
          (fun v =>
             before v;; enterVariableDeclaration v statement parent;;
             after v)
        = scanNamespaces document (fun v => before v;; after v)).
Proof.
  intros Hlen statement.
  assert (forall this,
            enterVariableDeclaration namespaceVisitor statement parent this
            = (Ok tt, this)) as Hskip.
  { intros this. cbn.
    destruct declarations as [|d1 [|d2 ds]]; cbn in Hlen; try lia.
    reflexivity. }
  split; [exact Hskip|]. split.
  - unfold NamespaceScanner.scan. rewrite Hskip. reflexivity.
  - intros before after. unfold NamespaceScanner.scan, mbind, M_bind.
    destruct (before namespaceVisitor _) as [[[]|e] this']; [|reflexivity].
    rewrite Hskip. reflexivity.
Qed.

(** C7.  A statement that declares the single variable [x], preceded by a
    comment that has the namespace marker and no explicit name tag, yields
    exactly one namespace.  Its name is [x], its node is the statement and
    its source range is the range of the whole statement. *)
Theorem single_declarator_namespace
    (document : JavaScriptDocument) (x : string) (init : option Node)
    (kind : string) (parent : Node) (comment : string)
    (range : SourceRange) :
  let statement :=
    VariableDeclaration [Build_VariableDeclarator (Identifier x) init] kind in
  getAttachedComment statement = Some comment ->
  includes comment "@namespace" = true ->
  getTag (parseJsdoc comment) "namespace" "name" = None ->
  getIdentifierName (Identifier x) = Some x ->
  x <> "" ->
  sourceRangeForNode document statement = Some range ->
  scanNamespaces document
    (fun v => enterVariableDeclaration v statement parent)
  = Ok [Namespace.Build_ScannedNamespace
          x statement (parseJsdoc comment) range].
Proof.
  intros statement Hcomment Hmarker Htag Hname Hx Hrange.
  unfold NamespaceScanner.scan. cbn [enterVariableDeclaration
    NamespaceScanner.hooks NamespaceScanner.enterVariableDeclaration
    statement length Nat.eqb negb id].
  rewrite (initNamespace_named statement _ comment _ Hcomment Hmarker).
  - cbn [NamespaceScanner.document]. fold statement. rewrite Hrange.
    rewrite Htag, Hname. cbn. reflexivity.
  - rewrite Htag, Hname. cbn. apply String.eqb_neq in Hx. rewrite Hx.
    reflexivity.
Qed.

(** C8.  A node that is recognised as a namespace, by a comment with the
    marker and a name that could be determined, and for which the document
    has no source range, makes the scan throw; nothing is skipped and no
    warning is recorded.  This holds for a declaration statement and for
    an assignment, whose comment and range are those of its parent. *)
Theorem namespace_without_range_throws
    (document : JavaScriptDocument) (d : VariableDeclarator)
    (kind operator : string) (lhs rhs parent : Node) (comment : string) :
  let named (candidate : option string) :=
    Js.truthy
      (Js.or (Js.of_option (getTag (parseJsdoc comment) "namespace" "name"))
             (Js.of_option candidate)) = true in
  let failure :=
    Throw (Error ("Unable to determine sourceRange for @namespace: "
                  +:+ comment)) in
  (let statement := VariableDeclaration [d] kind in
   getAttachedComment statement = Some comment ->
   includes comment "@namespace" = true ->
   named (getIdentifierName (id d)) ->
   sourceRangeForNode document statement = None ->
   scanNamespaces document
     (fun v => enterVariableDeclaration v statement parent)
   = failure)
  /\
  (getAttachedComment parent = Some comment ->
   includes comment "@namespace" = true ->
   named (getIdentifierName lhs) ->
   sourceRangeForNode document parent = None ->
   scanNamespaces document
     (fun v =>
        enterAssignmentExpression v
          (AssignmentExpression operator lhs rhs) parent)
   = failure).
Proof.
  intros named failure. split.
  - intros statement Hcomment Hmarker Hname Hrange.
    unfold NamespaceScanner.scan. cbn [enterVariableDeclaration
      NamespaceScanner.hooks NamespaceScanner.enterVariableDeclaration
      statement length Nat.eqb negb].
    rewrite (initNamespace_named _ _ comment _ Hcomment Hmarker Hname).
    cbn [NamespaceScanner.document]. fold statement. rewrite Hrange.
    reflexivity.
  - intros Hcomment Hmarker Hname Hrange.
    unfold NamespaceScanner.scan. cbn [enterAssignmentExpression
      NamespaceScanner.hooks NamespaceScanner.enterAssignmentExpression].
    rewrite (initNamespace_named _ _ comment _ Hcomment Hmarker Hname).
    cbn [NamespaceScanner.document]. rewrite Hrange. reflexivity.
Qed.

End NamespaceScannerProperties.

Lemma multiple_declarators_skipped_witness :
  NamespaceScanner.scan AstValue.getIdentifierName marked comment_text no_tag
    one_statement (fun v => enterVariableDeclaration v var_Foo_Bar program)
  = Ok [].
Proof.
  refine (proj1 (proj2 (multiple_declarators_skipped
                          AstValue.getIdentifierName marked comment_text
                          no_tag one_statement _ "var" program _))).
  cbn. lia.
Defined.

Lemma single_declarator_namespace_witness :
  NamespaceScanner.scan AstValue.getIdentifierName marked comment_text no_tag
    one_statement (fun v => enterVariableDeclaration v var_Foo program)
  = Ok [Namespace.Build_ScannedNamespace
          "Foo" var_Foo "* @namespace " second_line].
Proof.
  apply (single_declarator_namespace
           AstValue.getIdentifierName marked comment_text no_tag
           one_statement "Foo" (Some (ObjectExpression [])) "var" program
           "* @namespace " second_line).
  - reflexivity.
  - reflexivity.
  - reflexivity.
  - reflexivity.
  - discriminate.
  - reflexivity.
Defined.

Lemma namespace_without_range_throws_witness :
  NamespaceScanner.scan AstValue.getIdentifierName marked comment_text no_tag
    no_ranges (fun v => enterVariableDeclaration v var_Foo program)
  = Throw (Error "Unable to determine sourceRange for @namespace: * @namespace ")
  /\
  NamespaceScanner.scan AstValue.getIdentifierName marked comment_text no_tag
    no_ranges
    (fun v =>
       enterAssignmentExpression v assign_Foo_Bar
         (ExpressionStatement assign_Foo_Bar))
  = Throw (Error "Unable to determine sourceRange for @namespace: * @namespace ").
Proof.
  pose proof (namespace_without_range_throws
                AstValue.getIdentifierName marked comment_text no_tag
                no_ranges
                (Build_VariableDeclarator (Identifier "Foo")
                   (Some (ObjectExpression [])))
                "var" "="
                (MemberExpression (Identifier "Foo") (Identifier "Bar") false)
                (ObjectExpression [])
                (ExpressionStatement assign_Foo_Bar)
                "* @namespace ") as [Hstatement Hassignment].
  split.
  - apply Hstatement; reflexivity.
  - apply Hassignment; reflexivity.
Defined.

(** ** Resolution of a scanned mixin *)

Section MixinProperties.

Context {Value Document : Type}.
Variable empty_array kinds_set : Value.
Variable new_ElementMixin : gmap string Value.

Abbreviation resolveMixin :=
  (@PolymerElementMixin.resolve Value empty_array kinds_set new_ElementMixin
     Document).

(** Every own property of the scanned mixin is on the resolved one, with
    the same value. *)
Lemma resolve_lookup_Some (this : gmap string Value) (document : Document)
    (k : string) (v : Value) :
  this !! k = Some v -> resolveMixin this document !! k = Some v.
Proof.
  intros Hk. unfold PolymerElementMixin.resolve,
    PolymerElementMixin.Object_assign.
  apply lookup_union_Some_l. exact Hk.
Qed.

(** A property that the scanned mixin does not have is as the constructor
    of the resolved mixin left it. *)
Lemma resolve_lookup_None (this : gmap string Value) (document : Document)
    (k : string) :
  this !! k = None ->
  resolveMixin this document !! k
  = PolymerElementMixin.new_PolymerElementMixin
      empty_array kinds_set new_ElementMixin !! k.
Proof.
  intros Hk. unfold PolymerElementMixin.resolve,
    PolymerElementMixin.Object_assign.
  apply lookup_union_r. exact Hk.
Qed.

(** C9.  Resolving a scanned mixin that has no behavior references gives
    an object whose [properties], [observers] and [listeners] are those of
    the scanned mixin, unchanged; every own property of the scanned mixin
    is copied as it is. *)
Theorem resolve_copies_declared_lists
    (this : gmap string Value) (document : Document)
    (properties observers listeners : Value) :
  this !! "behaviorAssignments" = Some empty_array ->
  this !! "properties" = Some properties ->
  this !! "observers" = Some observers ->
  this !! "listeners" = Some listeners ->
  let element := resolveMixin this document in
  element !! "properties" = Some properties
  /\ element !! "observers" = Some observers
  /\ element !! "listeners" = Some listeners
  /\ (forall k v, this !! k = Some v -> element !! k = Some v).
Proof.
  intros _ Hproperties Hobservers Hlisteners element.
  repeat split.
  - apply resolve_lookup_Some, Hproperties.
  - apply resolve_lookup_Some, Hobservers.
  - apply resolve_lookup_Some, Hlisteners.
  - intros k v. apply resolve_lookup_Some.
Qed.

End MixinProperties.

Lemma resolve_copies_declared_lists_witness :
  let element :=
    PolymerElementMixin.resolve [] ["element-mixin"; "polymer-element-mixin"]
      ∅ sample_mixin tt in
  element !! "properties" = Some ["simple"]
  /\ element !! "observers" = Some []
  /\ element !! "listeners" = Some ["tap"].
Proof.
  pose proof (resolve_copies_declared_lists
                [] ["element-mixin"; "polymer-element-mixin"] ∅
                sample_mixin tt ["simple"] [] ["tap"]) as H.
  destruct H as (Hp & Ho & Hl & _).
  - reflexivity.
  - reflexivity.
  - reflexivity.
  - reflexivity.
  - cbv zeta. split; [exact Hp|]. split; [exact Ho|exact Hl].
Defined.

(** ** The coordinate mapper *)

(** C5.  Without an offset a range is returned as it is; an undefined range
    stays undefined under an offset; under the offset [{line: L, column: C}]
    a position on line 0 moves to line [L] and its column is shifted by
    [C], and a position on a line [n > 0] moves to line [L + n] and keeps
    its column.  This holds for the start and for the end of a range. *)
Theorem correctSourceRange_offset (L C : Z) :
  let offset : LocationOffset := {| line := L; column := C |} in
  (forall range, correctSourceRange range None = range)
  /\ correctSourceRange None (Some offset) = None
  /\ (forall k,
        correctPosition {| line := 0; column := k |} offset
        = {| line := L; column := k + C |})
  /\ (forall n k,
        (n > 0)%Z ->
        correctPosition {| line := n; column := k |} offset
        = {| line := L + n; column := k |})
  /\ (forall f s e,
        correctSourceRange (Some {| file := f; start := s; end_ := e |})
          (Some offset)
        = Some {| file := f;
                  start := correctPosition s offset;
                  end_ := correctPosition e offset |}).
Proof.
  intros offset.
  split; [reflexivity|]. split; [reflexivity|].
  split; [|split].
  - intros k. reflexivity.
  - intros n k Hn. unfold correctPosition; cbn.
    destruct (Z.eqb_spec n 0) as [->|_]; [lia|].
    f_equal; lia.
  - reflexivity.
Qed.

Lemma correctSourceRange_offset_witness :
  correctPosition {| line := 2; column := 7 |} {| line := 10; column := 4 |}
  = {| line := 12; column := 7 |}.
Proof.
  refine (proj1 (proj2 (proj2 (proj2 (correctSourceRange_offset 10 4))))
            2%Z 7%Z _).
  reflexivity.
Defined.

(** ** The TypeScript pre-parser *)

(** The first element that satisfies a test splits the list around it. *)
Lemma find_first_split {A : Type} (f : A -> bool) (l : list A) :
  match List.find f l with
  | Some x =>
      exists before after : list A,
        l = (before ++ x :: after)%list
        /\ Forall (fun y => f y = false) before
        /\ f x = true
  | None => Forall (fun y => f y = false) l
  end.
Proof.
  induction l as [|a l IH]; cbn.
  - constructor.
  - destruct (f a) eqn:Ha.
    + exists [], l. repeat split; [constructor|exact Ha].
    + destruct (List.find f l) as [x|].
      * destruct IH as (before & after & -> & Hbefore & Hx).
        exists (a :: before), after. repeat split; [|exact Hx].
        constructor; assumption.
      * constructor; assumption.
Qed.

Section PreparserProperties.

Context {SourceFile MessageText AstNode : Type}.
Variable createSourceFile : string -> string -> SourceFile.
Variable parseDiagnostics :
  SourceFile -> option (list (ts.Diagnostic MessageText)).
Variable getLineAndCharacterOfPosition :
  SourceFile -> Z -> ts.LineAndCharacter.
Variable flattenDiagnosticMessageText : MessageText -> string -> string.

Abbreviation parseTypeScript :=
  (@TypeScriptPreparser.parse SourceFile MessageText AstNode
     createSourceFile parseDiagnostics getLineAndCharacterOfPosition
     flattenDiagnosticMessageText).

Lemma is_error_category (d : ts.Diagnostic MessageText) :
  ts.is_error d = true <-> ts.category d = ts.Error.
Proof.
  unfold ts.is_error. destruct (ts.category d); cbn; split; congruence.
Qed.

(** C4.  When a diagnostic of the parse has the error category, [parse]
    throws an exception that carries a warning built from the first such
    diagnostic: its code is [parse-error], its severity is [ERROR], its
    message is the text of that diagnostic and it has a source range,
    that of the diagnostic corrected by the offset of the inline
    document.  When no diagnostic has the error category, [parse] returns
    a document. *)
Theorem parse_throws_first_error
    (contents url : string)
    (inlineInfo : option (@TypeScriptPreparser.InlineDocInfo AstNode)) :
  let sourceFile := createSourceFile url contents in
  let diagnostics := default [] (parseDiagnostics sourceFile) in
  let offset := inlineInfo ≫= TypeScriptPreparser.locationOffset in
  ((exists d, In d diagnostics /\ ts.category d = ts.Error) ->
   exists (before : list (ts.Diagnostic MessageText)) parseError after
          w range,
     diagnostics = (before ++ parseError :: after)%list
     /\ Forall (fun d => ts.category d <> ts.Error) before
     /\ ts.category parseError = ts.Error
     /\ parseTypeScript contents url inlineInfo
        = Throw (WarningCarryingException w)
     /\ code w = "parse-error"
     /\ severity w = ERROR
     /\ message w
        = flattenDiagnosticMessageText (ts.messageText parseError) newline
     /\ sourceRange w = Some range
     /\ let from :=
          getLineAndCharacterOfPosition sourceFile (ts.start parseError) in
        let to :=
          getLineAndCharacterOfPosition sourceFile
            (ts.start parseError + ts.length parseError)%Z in
        correctSourceRange
          (Some {| file := url;
                   start := {| line := ts.line from;
                               column := ts.character from |};
                   end_ := {| line := ts.line to;
                              column := ts.character to |} |})
          offset
        = Some range)
  /\
  ((forall d, In d diagnostics -> ts.category d <> ts.Error) ->
   exists document, parseTypeScript contents url inlineInfo = Ok document).
Proof.
  intros sourceFile diagnostics offset.
  pose proof (find_first_split ts.is_error diagnostics) as Hfind.
  unfold TypeScriptPreparser.parse.
  fold sourceFile. fold diagnostics.
  change (fun d : ts.Diagnostic MessageText =>
            ts.DiagnosticCategory_eqb (ts.category d) ts.Error)
    with (@ts.is_error MessageText).
  destruct (List.find ts.is_error diagnostics) as [parseError|]; split.
  - intros _.
    destruct Hfind as (before & after & Hsplit & Hbefore & Herror).
    set (raw := {| file := url; start := _; end_ := _ |}).
    assert (exists range,
              correctSourceRange (Some raw)
                (TypeScriptPreparser.locationOffset
                   (default
                      {| TypeScriptPreparser.astNode := None;
                         TypeScriptPreparser.locationOffset := None |}
                      inlineInfo))
              = Some range) as [range Hrange].
    { destruct inlineInfo as [[? [o|]]|]; cbn; eexists; reflexivity. }
    exists before, parseError, after. eexists. exists range.
    repeat split.
    + exact Hsplit.
    + eapply Forall_impl; [exact Hbefore|].
      intros d Hd Hcat. apply is_error_category in Hcat. congruence.
    + apply is_error_category, Herror.
    + cbn. exact Hrange.
    + cbv zeta. rewrite <- Hrange. unfold raw, offset.
      destruct inlineInfo as [[? [o|]]|]; reflexivity.
  - intros Hnone.
    destruct Hfind as (before & after & Hsplit & _ & Herror).
    exfalso. apply (Hnone parseError).
    + rewrite Hsplit. apply in_or_app. right. left. reflexivity.
    + apply is_error_category, Herror.
  - intros (d & Hin & Hcat). exfalso.
    rewrite Forall_forall in Hfind.
    apply list_elem_of_In in Hin. specialize (Hfind d Hin).
    apply is_error_category in Hcat. congruence.
  - intros _. eexists. reflexivity.
Qed.

End PreparserProperties.

Lemma parse_throws_first_error_witness :
  (exists w,
     TypeScriptPreparser.parse (AstNode := unit)
       sample_createSourceFile sample_parseDiagnostics first_line flat_text
       "let = ;" "broken.ts" None
     = Throw (WarningCarryingException w)
     /\ code w = "parse-error" /\ severity w = ERROR)
  /\
  (exists document,
     TypeScriptPreparser.parse (AstNode := unit)
       sample_createSourceFile sample_parseDiagnostics first_line flat_text
       "let x = 1;" "fine.ts" None
     = Ok document).
Proof.
  split.
  - destruct (proj1 (parse_throws_first_error (AstNode := unit)
                       sample_createSourceFile sample_parseDiagnostics
                       first_line flat_text "let = ;" "broken.ts" None))
      as (before & parseError & after & w & range & _ & _ & _ & Hparse
          & Hcode & Hseverity & _).
    + exists {| ts.category := ts.Error; ts.start := 9; ts.length := 1;
                ts.messageText := "Expression expected." |}.
      split; [|reflexivity]. cbn. right. right. left. reflexivity.
    + exists w. split; [exact Hparse|]. split; assumption.
  - apply (proj2 (parse_throws_first_error (AstNode := unit)
                    sample_createSourceFile sample_parseDiagnostics
                    first_line flat_text "let x = 1;" "fine.ts" None)).
    cbn. intros d [].
Defined.

(** The exception that the stub parser's broken file makes [parse] throw:
    the warning comes from the first of its two errors. *)
Example parse_broken_file :
  TypeScriptPreparser.parse (AstNode := unit)
    sample_createSourceFile sample_parseDiagnostics first_line flat_text
    "let = ;" "broken.ts"
    (Some {| TypeScriptPreparser.astNode := None;
             TypeScriptPreparser.locationOffset :=
               Some {| line := 20; column := 8 |} |})
  = Throw
      (WarningCarryingException
         {| code := "parse-error";
            message := "';' expected.";
            severity := ERROR;
            sourceRange :=
              Some {| file := "broken.ts";
                      start := {| line := 20; column := 12 |};
                      end_ := {| line := 20; column := 14 |} |} |}).
Proof. reflexivity. Qed.

(** ** The validator of generated metadata *)

(** C3.  Metadata with no elements and the schema version 1.0.0 is valid;
    so is metadata with the version 1.0.1, also when it has a member that
    the schema does not know; the version 5.1.1 is rejected with a message
    about an invalid [schema_version]; and the empty object is rejected with
    a [ValidationError] whose message cites the required property
    [schema_version] and whose list of errors is not empty. *)
Theorem validateElements_examples :
  GenerateElements.validateElements (metadata "1.0.0") = Ok tt
  /\ GenerateElements.validateElements (metadata "1.0.1") = Ok tt
  /\ GenerateElements.validateElements (metadata_with_new_field "1.0.1")
     = Ok tt
  /\ (exists e,
        GenerateElements.validateElements (metadata_with_new_field "5.1.1")
        = Throw e
        /\ includes (exception_message e)
             "Invalid schema_version in AnalyzedPackage" = true)
  /\ (exists msg errors,
        GenerateElements.validateElements (GenerateElements.JObject [])
        = Throw (ValidationError msg errors)
        /\ includes msg
             ("requires property " +:+ dquote +:+ "schema_version" +:+ dquote)
           = true
        /\ errors <> []).
Proof.
  split; [reflexivity|]. split; [reflexivity|]. split; [reflexivity|]. split.
  - eexists. split; reflexivity.
  - do 2 eexists. split; [reflexivity|]. split; [reflexivity|discriminate].
Qed.

(** The version rule on its own: a version is accepted exactly when it has
    three decimal numbers, a major number of at most 1 and the minor
    number 0. *)
Lemma compatible_version_iff (version : string) :
  GenerateElements.compatible_version version = true <->
  exists major minor patch,
    GenerateElements.parse_version version = Some (major, minor, patch)
    /\ (major <= GenerateElements.known_major)%N
    /\ (minor <= GenerateElements.known_minor)%N.
Proof.
  unfold GenerateElements.compatible_version.
  destruct (GenerateElements.parse_version version) as [[[major minor] patch]|].
  - rewrite andb_true_iff, !N.leb_le. split.
    + intros [Hmajor Hminor]. exists major, minor, patch. auto.
    + intros (? & ? & ? & [= <- <- <-] & Hmajor & Hminor). auto.
  - split; [discriminate|]. intros (? & ? & ? & [=] & _).
Qed.

(** * Further properties of the declaration property handlers *)

Lemma omap_length_le {A B : Type} (f : A -> option B) (l : list A) :
  (length (omap f l) <= length l)%nat.
Proof.
  induction l as [|x l IH]; [reflexivity|].
  cbn. cbn in IH. destruct (f x); cbn; lia.
Qed.

Lemma behaviors_array_expression
    (getIdentifierName : Node -> option string)
    (document : JavaScriptDocument) (elements : list Node)
    (d : ScannedPolymerElement) :
  let outcome e := getBehaviorAssignmentOrWarning getIdentifierName e document in
  declarationPropertyHandlers.behaviors getIdentifierName document
    (ArrayExpression elements) d
  = (Ok tt,
     with_behaviors d
       (behaviorAssignments d
        ++ omap (fun e => assignment_of (outcome e)) elements)
       (warnings d ++ omap (fun e => warning_of (outcome e)) elements)).
Proof.
  intros outcome. unfold declarationPropertyHandlers.behaviors. cbn.
  rewrite (for_of_modify (fun e => add_outcome (outcome e))).
  - apply f_equal. apply foldl_add_outcome.
  - intros e st. unfold outcome.
    destruct (getBehaviorAssignmentOrWarning getIdentifierName e document);
      reflexivity.
Qed.

(** X1.  Both handlers treat a literal as the sequence of its parts: the
    [behaviors] of an array literal [es1 ++ es2] are those of [es1] followed
    by those of [es2], and the [listeners] of an object literal likewise. *)
Theorem handlers_split_literal
    (getIdentifierName : Node -> option string)
    (document : JavaScriptDocument)
    (es1 es2 : list Node) (ps1 ps2 : list Property)
    (d : ScannedPolymerElement) :
  declarationPropertyHandlers.behaviors getIdentifierName document
    (ArrayExpression (es1 ++ es2)) d
  = (declarationPropertyHandlers.behaviors getIdentifierName document
       (ArrayExpression es1);;
     declarationPropertyHandlers.behaviors getIdentifierName document
       (ArrayExpression es2)) d
  /\
  declarationPropertyHandlers.listeners document
    (ObjectExpression (ps1 ++ ps2)) d
  = (declarationPropertyHandlers.listeners document (ObjectExpression ps1);;
     declarationPropertyHandlers.listeners document (ObjectExpression ps2)) d.
Proof.
  split.
  - unfold declarationPropertyHandlers.behaviors. cbn. apply for_of_app.
  - unfold declarationPropertyHandlers.listeners. cbn. apply for_of_app.
Qed.

(** X2.  On literals the handlers [behaviors] and [listeners] commute: the
    declaration does not depend on which of the two keys comes first. *)
Theorem behaviors_listeners_commute
    (getIdentifierName : Node -> option string)
    (document : JavaScriptDocument)
    (elements : list Node) (ps : list Property)
    (d : ScannedPolymerElement) :
  (declarationPropertyHandlers.behaviors getIdentifierName document
     (ArrayExpression elements);;
   declarationPropertyHandlers.listeners document (ObjectExpression ps)) d
  = (declarationPropertyHandlers.listeners document (ObjectExpression ps);;
     declarationPropertyHandlers.behaviors getIdentifierName document
       (ArrayExpression elements)) d.
Proof.
  unfold mbind, M_bind.
  rewrite behaviors_array_expression, listeners_object_expression.
  rewrite listeners_object_expression, behaviors_array_expression.
  reflexivity.
Qed.

(** X3.  Whatever node the [listeners] handler is given, it returns
    normally, leaves the tag name and the behavior assignments of the
    declaration alone, and only appends to its listeners and warnings: at
    most one listener for each property, and one warning exactly when the
    node is not an object literal. *)
Theorem listeners_only_appends
    (document : JavaScriptDocument) (node : Node)
    (d : ScannedPolymerElement) :
  exists d',
    declarationPropertyHandlers.listeners document node d = (Ok tt, d')
    /\ tagName d' = tagName d
    /\ behaviorAssignments d' = behaviorAssignments d
    /\ listeners d `prefix_of` listeners d'
    /\ warnings d `prefix_of` warnings d'
    /\ (length (listeners d')
        <= length (listeners d) + length (node_properties node))%nat
    /\ length (warnings d')
       = (length (warnings d)
          + if String.eqb (node_type node) "ObjectExpression" then 0 else 1)%nat.
Proof.
  destruct (String.eqb (node_type node) "ObjectExpression") eqn:Htype.
  - assert (declarationPropertyHandlers.listeners document node d
            = (Ok tt,
               with_listeners d
                 (listeners d
                  ++ omap extracted_listener (node_properties node)))) as ->.
    { destruct node; try discriminate Htype.
      - apply listeners_object_expression.
      - unfold declarationPropertyHandlers.listeners. rewrite Htype.
        cbn. rewrite app_nil_r, with_listeners_id. reflexivity. }
    eexists. split; [reflexivity|].
    unfold with_listeners.
    cbn [tagName listeners behaviorAssignments warnings].
    split; [reflexivity|]. split; [reflexivity|].
    split; [apply prefix_app_r; reflexivity|].
    split; [reflexivity|]. split.
    + rewrite length_app.
      pose proof (omap_length_le extracted_listener (node_properties node)).
      lia.
    + lia.
  - rewrite listeners_not_object_expression
      by (apply String.eqb_neq; exact Htype).
    eexists. split; [reflexivity|].
    unfold with_behaviors.
    cbn [tagName listeners behaviorAssignments warnings].
    split; [reflexivity|]. split; [reflexivity|].
    split; [reflexivity|].
    split; [apply prefix_app_r; reflexivity|]. split.
    + lia.
    + rewrite length_app. reflexivity.
Qed.

(** X4.  The listeners that the handler adds for an object literal are
    exactly those that a property of the literal declares: an entry
    [{event, handler}] is added if and only if some property has the string
    literal [handler] as its value and, as its key, the identifier [event]
    or the non-empty string literal [event]. *)
Theorem listeners_sound_and_complete
    (document : JavaScriptDocument) (ps : list Property)
    (d : ScannedPolymerElement) :
  exists added,
    declarationPropertyHandlers.listeners document (ObjectExpression ps) d
    = (Ok tt, with_listeners d (listeners d ++ added))
    /\ forall l, l ∈ added <-> exists p, p ∈ ps /\ declares p l.
Proof.
  exists (omap extracted_listener ps).
  split; [apply listeners_object_expression|].
  intros [e h]. rewrite list_elem_of_omap.
  split; intros (p & Hp & Hl); exists p; (split; [exact Hp|]).
  - destruct p as [k v c s m]. unfold extracted_listener in Hl.
    unfold declares; cbn in *.
    destruct k as [e'|kv| | | | | | | |]; cbn in Hl; try discriminate Hl.
    + destruct v as [|vv| | | | | | | |]; cbn in Hl; try discriminate Hl.
      destruct vv; cbn in Hl; try discriminate Hl.
      injection Hl as -> ->. split; [reflexivity|left; reflexivity].
    + destruct kv as [| | | |e'|]; cbn in Hl; try discriminate Hl.
      destruct (String.eqb_spec e' "") as [->|Hne]; [discriminate Hl|].
      destruct v as [|vv| | | | | | | |]; cbn in Hl; try discriminate Hl.
      destruct vv; cbn in Hl; try discriminate Hl.
      injection Hl as -> ->. split; [reflexivity|right]. split; [reflexivity|].
      exact Hne.
  - destruct p as [k v c s m]. destruct Hl as [Hv Hk]. cbn in Hv, Hk.
    unfold extracted_listener; cbn. rewrite Hv.
    destruct Hk as [->|[-> Hne]]; cbn; [reflexivity|].
    apply String.eqb_neq in Hne. rewrite Hne. reflexivity.
Qed.

(** What the two handlers do to a declaration does not depend on the
    declaration: they append fixed lists to it. *)
Lemma listeners_appends_fixed (document : JavaScriptDocument) (node : Node) :
  exists ls ws,
    forall d,
      declarationPropertyHandlers.listeners document node d
      = (Ok tt,
         {| tagName := tagName d; listeners := listeners d ++ ls;
            behaviorAssignments := behaviorAssignments d;
            warnings := warnings d ++ ws |}).
Proof.
  destruct (String.eqb (node_type node) "ObjectExpression") eqn:Htype.
  - exists (omap extracted_listener (node_properties node)), [].
    intros d. destruct node; try discriminate Htype.
    + rewrite listeners_object_expression. unfold with_listeners.
      rewrite app_nil_r. reflexivity.
    + unfold declarationPropertyHandlers.listeners. rewrite Htype.
      cbn. rewrite !app_nil_r. destruct d; reflexivity.
  - eexists [], _. intros d.
    rewrite listeners_not_object_expression
      by (apply String.eqb_neq; exact Htype).
    unfold with_behaviors. rewrite app_nil_r. reflexivity.
Qed.

Lemma behaviors_appends_fixed
    (getIdentifierName : Node -> option string)
    (document : JavaScriptDocument) (node : Node) :
  exists assignments ws,
    forall d,
      declarationPropertyHandlers.behaviors getIdentifierName document node d
      = (Ok tt,
         {| tagName := tagName d; listeners := listeners d;
            behaviorAssignments := behaviorAssignments d ++ assignments;
            warnings := warnings d ++ ws |}).
Proof.
  destruct (String.eqb (node_type node) "ArrayExpression") eqn:Htype.
  - destruct node; try discriminate Htype.
    + eexists _, _. intros d. rewrite behaviors_array_expression.
      reflexivity.
    + exists [], []. intros d.
      unfold declarationPropertyHandlers.behaviors. rewrite Htype.
      cbn. rewrite !app_nil_r. destruct d; reflexivity.
  - exists [], []. intros d.
    rewrite behaviors_not_array_expression
      by (apply String.eqb_neq; exact Htype).
    rewrite !app_nil_r. destruct d; reflexivity.
Qed.

Section OtherHandlers.

Context {LiteralValue : Type}.
Variable number_to_string : spec_float -> string.
Variable expressionToValue : Node -> option LiteralValue.
Variable CANT_CONVERT : LiteralValue.

Abbreviation is_handler := (PropertyHandlers.is_ number_to_string).
Abbreviation observers_handler :=
  (PropertyHandlers.observers expressionToValue CANT_CONVERT).

Lemma is_literal (v : Js.Value) (d : ScannedPolymerElement) :
  is_handler (Literal v) d
  = (Ok tt,
     with_tagName d (Some (PropertyHandlers.to_string number_to_string v))).
Proof. reflexivity. Qed.

Lemma is_not_literal (node : Node) (d : ScannedPolymerElement) :
  node_type node <> "Literal" -> is_handler node d = (Ok tt, d).
Proof.
  intros Htype. unfold PropertyHandlers.is_.
  apply String.eqb_neq in Htype. rewrite Htype. reflexivity.
Qed.

(** X5.  The [is] handler takes the tag name from a literal only.  A string
    literal gives its string, the literals [null], [true] and [false] give
    their spelling, and a node of any other type leaves the declaration as
    it was, without a warning.  A later literal replaces the tag name that
    an earlier [is] has set. *)
Theorem is_tag_name_from_literal (node : Node) (d : ScannedPolymerElement) :
  (forall s,
     is_handler (Literal (Js.Str s)) d = (Ok tt, with_tagName d (Some s)))
  /\ is_handler (Literal Js.Null) d = (Ok tt, with_tagName d (Some "null"))
  /\ (forall b,
        is_handler (Literal (Js.Boolean b)) d
        = (Ok tt, with_tagName d (Some (if b then "true" else "false"))))
  /\ (node_type node <> "Literal" -> is_handler node d = (Ok tt, d))
  /\ (forall v, (is_handler node;; is_handler (Literal v)) d
                = is_handler (Literal v) d).
Proof.
  split; [reflexivity|]. split; [reflexivity|].
  split; [intros []; reflexivity|].
  split; [apply is_not_literal|].
  intros v. unfold mbind, M_bind.
  destruct (String.eqb (node_type node) "Literal") eqn:Htype.
  - unfold PropertyHandlers.is_ at 1. rewrite Htype. reflexivity.
  - rewrite is_not_literal by (apply String.eqb_neq; exact Htype).
    reflexivity.
Qed.

(** X6.  The [is] handler commutes with the [behaviors] and the [listeners]
    handler, whatever nodes the three are given. *)
Theorem is_commutes
    (getIdentifierName : Node -> option string)
    (document : JavaScriptDocument) (name_node node : Node)
    (d : ScannedPolymerElement) :
  (is_handler name_node;;
   declarationPropertyHandlers.behaviors getIdentifierName document node) d
  = (declarationPropertyHandlers.behaviors getIdentifierName document node;;
     is_handler name_node) d
  /\
  (is_handler name_node;;
   declarationPropertyHandlers.listeners document node) d
  = (declarationPropertyHandlers.listeners document node;;
     is_handler name_node) d.
Proof.
  destruct (behaviors_appends_fixed getIdentifierName document node)
    as (assignments & ws & Hbehaviors).
  destruct (listeners_appends_fixed document node) as (ls & ws' & Hlisteners).
  unfold mbind, M_bind.
  destruct (String.eqb (node_type name_node) "Literal") eqn:Htype.
  - unfold PropertyHandlers.is_. rewrite Htype. cbn.
    rewrite !Hbehaviors, !Hlisteners. cbn. split; reflexivity.
  - rewrite !is_not_literal by (apply String.eqb_neq; exact Htype).
    rewrite !Hbehaviors, !Hlisteners.
    rewrite !is_not_literal by (apply String.eqb_neq; exact Htype).
    split; reflexivity.
Qed.

(** X7.  The [observers] handler keeps every element of an array literal:
    it returns normally and appends one observer for each element, in
    order, made of the element itself and of its value, or of
    [CANT_CONVERT] when the element has no value.  A node that is not an
    array literal adds nothing. *)
Theorem observers_one_per_element
    (node : Node) (observers : list (Observer LiteralValue)) :
  let observer_of element :=
    {| javascriptNode := element;
       expression := default CANT_CONVERT (expressionToValue element) |} in
  (forall elements,
     node = ArrayExpression elements ->
     observers_handler node observers
     = (Ok tt, (observers ++ map observer_of elements)%list))
  /\ (node_type node <> "ArrayExpression" ->
      observers_handler node observers = (Ok tt, observers))
  /\ exists observers',
       observers_handler node observers = (Ok tt, observers')
       /\ map javascriptNode observers'
          = (map javascriptNode observers ++ node_elements node)%list.
Proof.
  intros observer_of.
  assert (forall elements os,
            for_of elements
              (fun element =>
                 let v := expressionToValue element in
                 let v := match v with None => CANT_CONVERT | Some v => v end in
                 modify (fun observers : list (Observer LiteralValue) =>
                   (observers
                    ++ [{| javascriptNode := element; expression := v |}])%list))
              os
            = (Ok tt, (os ++ map observer_of elements)%list)) as Hloop.
  { induction elements as [|e es IH]; intros os.
    - cbn. rewrite app_nil_r. reflexivity.
    - cbn. unfold mbind, M_bind, modify. rewrite IH.
      rewrite <- app_assoc. reflexivity. }
  assert (forall elements,
            map javascriptNode (map observer_of elements) = elements) as Hnodes.
  { induction elements as [|e es IH]; cbn; [reflexivity|].
    cbn in IH. rewrite IH. reflexivity. }
  split; [|split].
  - intros elements ->. unfold PropertyHandlers.observers. cbn.
    apply Hloop.
  - intros Htype. unfold PropertyHandlers.observers.
    apply String.eqb_neq in Htype. rewrite Htype. reflexivity.
  - unfold PropertyHandlers.observers.
    destruct (String.eqb (node_type node) "ArrayExpression") eqn:Htype.
    + cbn [negb]. rewrite Hloop. eexists. split; [reflexivity|].
      rewrite map_app, Hnodes. reflexivity.
    + cbn [negb]. eexists. split; [reflexivity|].
      destruct node; cbn in *; try (rewrite app_nil_r; reflexivity).
      discriminate Htype.
Qed.

End OtherHandlers.

Lemma is_tag_name_from_literal_witness :
  PropertyHandlers.is_ (fun _ => "0") (Identifier "tagName") empty_declaration
  = (Ok tt, empty_declaration).
Proof.
  refine (proj1 (proj2 (proj2 (proj2
            (is_tag_name_from_literal (fun _ => "0") (Identifier "tagName")
               empty_declaration)))) _).
  discriminate.
Defined.

Lemma observers_one_per_element_witness :
  PropertyHandlers.observers (fun _ => None) "CANT_CONVERT"
    (ArrayExpression [Identifier "a"; Identifier "b"]) []
  = (Ok tt,
     [ {| javascriptNode := Identifier "a"; expression := "CANT_CONVERT" |};
       {| javascriptNode := Identifier "b"; expression := "CANT_CONVERT" |} ]).
Proof.
  refine (proj1 (observers_one_per_element (fun _ => None) "CANT_CONVERT"
                   (ArrayExpression [Identifier "a"; Identifier "b"]) [])
            [Identifier "a"; Identifier "b"] _).
  reflexivity.
Defined.

(** * Further properties of the namespace scanner *)

(** A truthy value of [tag || name], for strings that may be undefined, is
    a non-empty string. *)
Lemma settled_name_nonempty (tag name : option string) :
  Js.truthy (Js.or (Js.of_option tag) (Js.of_option name)) = true ->
  Js.as_string (Js.or (Js.of_option tag) (Js.of_option name)) <> "".
Proof.
  destruct tag as [t|], name as [n|]; unfold Js.or; cbn;
    try destruct (String.eqb_spec t ""); cbn;
    try destruct (String.eqb_spec n ""); cbn;
    intros H; try discriminate H; assumption.
Qed.

Section NamespaceScannerTraversals.

Context {Annotation : Type}.
Variable getIdentifierName : Node -> option string.
Variable getAttachedComment : Node -> option string.
Variable parseJsdoc : string -> Annotation.
Variable getTag : Annotation -> string -> string -> option string.

Abbreviation ns_init :=
  (NamespaceScanner._initNamespace getAttachedComment parseJsdoc getTag).
Abbreviation ns_hooks :=
  (NamespaceScanner.hooks
     getIdentifierName getAttachedComment parseJsdoc getTag).
Abbreviation ns_scan :=
  (NamespaceScanner.scan
     getIdentifierName getAttachedComment parseJsdoc getTag).

(** The name that [_initNamespace] settles on. *)
Abbreviation settled_name comment call :=
  (Js.or (Js.of_option (getTag (parseJsdoc comment) "namespace" "name"))
         (Js.of_option (declared_name getIdentifierName call))).

Lemma dispatch_reaches (call : HookCall)
    (this : @NamespaceScanner.NamespaceVisitor Annotation) :
  reaches_initNamespace call = true ->
  dispatch ns_hooks call this
  = ns_init (candidate call)
      (fun _ => declared_name getIdentifierName call) this.
Proof.
  destruct call as [node parent|node parent]; cbn.
  - destruct node as [| | | | | |ds kind| | |]; try discriminate.
    destruct ds as [|d [|d' ds]]; try discriminate. reflexivity.
  - destruct node; try discriminate. reflexivity.
Qed.

Lemma dispatch_skips (call : HookCall)
    (this : @NamespaceScanner.NamespaceVisitor Annotation) :
  reaches_initNamespace call = false ->
  dispatch ns_hooks call this = (Ok tt, this).
Proof.
  destruct call as [node parent|node parent]; cbn.
  - destruct node as [| | | | | |ds kind| | |]; try reflexivity.
    destruct ds as [|d [|d' ds]]; try reflexivity. discriminate.
  - destruct node; try reflexivity. discriminate.
Qed.

Lemma initNamespace_unmarked
    (node : Node) (getName : unit -> option string)
    (this : @NamespaceScanner.NamespaceVisitor Annotation) :
  (forall comment,
     getAttachedComment node = Some comment ->
     includes comment "@namespace" = false) ->
  ns_init node getName this = (Ok tt, this).
Proof.
  intros Hunmarked. unfold NamespaceScanner._initNamespace.
  destruct (getAttachedComment node) as [comment|]; [|reflexivity].
  specialize (Hunmarked comment eq_refl).
  unfold includes in Hunmarked. apply negb_false_iff in Hunmarked.
  cbn [Js.of_option Js.as_string]. rewrite Hunmarked, orb_true_r.
  reflexivity.
Qed.

Lemma initNamespace_unnamed
    (node : Node) (getName : unit -> option string)
    (this : @NamespaceScanner.NamespaceVisitor Annotation) :
  (forall comment,
     getAttachedComment node = Some comment ->
     Js.truthy
       (Js.or (Js.of_option (getTag (parseJsdoc comment) "namespace" "name"))
              (Js.of_option (getName tt))) = false) ->
  ns_init node getName this = (Ok tt, this).
Proof.
  intros Hunnamed. unfold NamespaceScanner._initNamespace.
  destruct (getAttachedComment node) as [comment|]; [|reflexivity].
  specialize (Hunnamed comment eq_refl).
  cbn [Js.of_option Js.as_string]. rewrite Hunnamed.
  destruct (_ || _); reflexivity.
Qed.

(** A call adds what it finds to the namespaces of the visitor, whatever
    they are, and what it finds depends on the document only. *)
Lemma dispatch_frame (document : JavaScriptDocument) (call : HookCall) :
  exists r added,
    (forall this,
       NamespaceScanner.document this = document ->
       dispatch ns_hooks call this = (r, add_namespaces this added))
    /\ (length added <= 1)%nat
    /\ (forall e, r = Throw e -> added = [])
    /\ Forall (found_at getAttachedComment parseJsdoc document call) added.
Proof.
  assert (forall this : @NamespaceScanner.NamespaceVisitor Annotation,
            add_namespaces this [] = this) as Hnil.
  { intros [nss doc]. unfold add_namespaces; cbn.
    rewrite app_nil_r. reflexivity. }
  destruct (reaches_initNamespace call) eqn:Hreach.
  2:{ exists (Ok tt), []. repeat split.
      - intros this _. rewrite Hnil. apply dispatch_skips, Hreach.
      - cbn. lia.
      - constructor. }
  destruct (getAttachedComment (candidate call)) as [comment|] eqn:Hcomment.
  2:{ exists (Ok tt), []. repeat split.
      - intros this _. rewrite Hnil, dispatch_reaches by exact Hreach.
        apply initNamespace_unmarked. intros c Hc. congruence.
      - cbn. lia.
      - constructor. }
  destruct (includes comment "@namespace") eqn:Hmarker.
  2:{ exists (Ok tt), []. repeat split.
      - intros this _. rewrite Hnil, dispatch_reaches by exact Hreach.
        apply initNamespace_unmarked. intros c Hc. congruence.
      - cbn. lia.
      - constructor. }
  destruct (Js.truthy (settled_name comment call)) eqn:Hname.
  2:{ exists (Ok tt), []. repeat split.
      - intros this _. rewrite Hnil, dispatch_reaches by exact Hreach.
        apply initNamespace_unnamed. intros c Hc.
        assert (c = comment) as -> by congruence. exact Hname.
      - cbn. lia.
      - constructor. }
  destruct (sourceRangeForNode document (candidate call)) as [range|]
    eqn:Hrange.
  - exists (Ok tt),
      [Namespace.Build_ScannedNamespace
         (Js.as_string (settled_name comment call)) (candidate call)
         (parseJsdoc comment) range].
    repeat split.
    + intros this <-. rewrite dispatch_reaches by exact Hreach.
      rewrite (initNamespace_named _ _ _ _ _ comment _ Hcomment Hmarker Hname).
      rewrite Hrange. reflexivity.
    + cbn. lia.
    + intros e [=].
    + constructor; [|constructor]. unfold found_at; cbn.
      split; [reflexivity|]. split; [exact Hrange|]. split.
      * apply settled_name_nonempty, Hname.
      * exists comment. repeat split; assumption.
  - exists (Throw (Error ("Unable to determine sourceRange for @namespace: "
                          +:+ comment))), [].
    repeat split.
    + intros this <-. rewrite Hnil, dispatch_reaches by exact Hreach.
      rewrite (initNamespace_named _ _ _ _ _ comment _ Hcomment Hmarker Hname).
      rewrite Hrange. reflexivity.
    + cbn. lia.
    + constructor.
Qed.

Lemma add_namespaces_app
    (this : @NamespaceScanner.NamespaceVisitor Annotation)
    (a1 a2 : list (Namespace.ScannedNamespace Annotation)) :
  add_namespaces (add_namespaces this a1) a2 = add_namespaces this (a1 ++ a2).
Proof. unfold add_namespaces; cbn. rewrite app_assoc. reflexivity. Qed.

(** A traversal adds what it finds to the namespaces of the visitor; after
    a failure it adds nothing more. *)
Lemma calls_frame (document : JavaScriptDocument) (calls : list HookCall) :
  exists r added,
    (forall this,
       NamespaceScanner.document this = document ->
       for_of calls (dispatch ns_hooks) this = (r, add_namespaces this added))
    /\ (length added <= length calls)%nat
    /\ Forall
         (fun ns =>
            exists call,
              call ∈ calls
              /\ found_at getAttachedComment parseJsdoc document call ns)
         added.
Proof.
  induction calls as [|call calls IH].
  - exists (Ok tt), []. repeat split.
    + intros [nss doc] _. unfold add_namespaces; cbn.
      rewrite app_nil_r. reflexivity.
    + cbn. lia.
    + constructor.
  - destruct (dispatch_frame document call)
      as (r1 & a1 & Hcall & Hlen1 & Hthrow & Hfound1).
    destruct IH as (r2 & a2 & Hcalls & Hlen2 & Hfound2).
    assert (Forall
              (fun ns =>
                 exists c,
                   c ∈ call :: calls
                   /\ found_at getAttachedComment parseJsdoc document c ns)
              a1) as Hfound1'.
    { eapply Forall_impl; [exact Hfound1|]. intros ns Hns.
      exists call. split; [left|exact Hns]. }
    destruct r1 as [[]|e].
    + exists r2, (a1 ++ a2)%list. repeat split.
      * intros this Hdoc. cbn [for_of]. unfold mbind, M_bind.
        rewrite (Hcall this Hdoc), Hcalls by exact Hdoc.
        rewrite add_namespaces_app. reflexivity.
      * rewrite length_app. cbn. lia.
      * apply Forall_app. split; [exact Hfound1'|].
        eapply Forall_impl; [exact Hfound2|]. intros ns (c & Hc & Hns).
        exists c. split; [right; exact Hc|exact Hns].
    + exists (Throw e), a1. repeat split.
      * intros this Hdoc. cbn [for_of]. unfold mbind, M_bind.
        rewrite (Hcall this Hdoc). reflexivity.
      * cbn. lia.
      * exact Hfound1'.
Qed.

Lemma scan_calls (document : JavaScriptDocument) (calls : list HookCall)
    (r : Result unit)
    (added : list (Namespace.ScannedNamespace Annotation)) :
  (forall this,
     NamespaceScanner.document this = document ->
     for_of calls (dispatch ns_hooks) this = (r, add_namespaces this added)) ->
  ns_scan document (visit_calls calls)
  = match r with Ok _ => Ok added | Throw e => Throw e end.
Proof.
  intros Hcalls. unfold NamespaceScanner.scan, visit_calls.
  rewrite Hcalls by reflexivity. destruct r; reflexivity.
Qed.

Lemma scan_single_skipped (document : JavaScriptDocument) (call : HookCall) :
  (forall this, dispatch ns_hooks call this = (Ok tt, this)) ->
  ns_scan document (visit_calls [call]) = Ok [].
Proof.
  intros Hskip. unfold NamespaceScanner.scan, visit_calls.
  cbn [for_of]. unfold mbind, M_bind. rewrite Hskip. reflexivity.
Qed.

Lemma scan_single_named (document : JavaScriptDocument) (call : HookCall)
    (comment : string) (range : SourceRange) :
  reaches_initNamespace call = true ->
  getAttachedComment (candidate call) = Some comment ->
  includes comment "@namespace" = true ->
  Js.truthy (settled_name comment call) = true ->
  sourceRangeForNode document (candidate call) = Some range ->
  ns_scan document (visit_calls [call])
  = Ok [Namespace.Build_ScannedNamespace
          (Js.as_string (settled_name comment call)) (candidate call)
          (parseJsdoc comment) range].
Proof.
  intros Hreach Hcomment Hmarker Hname Hrange.
  unfold NamespaceScanner.scan, visit_calls.
  cbn [for_of]. unfold mbind, M_bind.
  rewrite dispatch_reaches by exact Hreach.
  rewrite (initNamespace_named _ _ _ _ _ comment _ Hcomment Hmarker Hname).
  cbn [NamespaceScanner.document]. rewrite Hrange. reflexivity.
Qed.

(** X8.  A node without an attached comment, or whose comment does not
    contain [@namespace], is passed over by both hooks: the visitor is left
    as it was and nothing is thrown, whether or not the node has a name or
    a source range. *)
Theorem unmarked_node_ignored
    (document : JavaScriptDocument) (call : HookCall) :
  (forall comment,
     getAttachedComment (candidate call) = Some comment ->
     includes comment "@namespace" = false) ->
  (forall this, dispatch ns_hooks call this = (Ok tt, this))
  /\ ns_scan document (visit_calls [call]) = Ok [].
Proof.
  intros Hunmarked.
  assert (forall this, dispatch ns_hooks call this = (Ok tt, this)) as Hskip.
  { intros this. destruct (reaches_initNamespace call) eqn:Hreach.
    - rewrite dispatch_reaches by exact Hreach.
      apply initNamespace_unmarked, Hunmarked.
    - apply dispatch_skips, Hreach. }
  split; [exact Hskip|]. apply scan_single_skipped, Hskip.
Qed.

(** X9.  An explicit name tag takes precedence: when the comment of a
    candidate names the namespace, the namespace gets that name, whatever
    the name of the declared identifier or of the left-hand side is, also
    when it has none. *)
Theorem explicit_name_tag_wins
    (document : JavaScriptDocument) (call : HookCall)
    (comment tag : string) (range : SourceRange) :
  reaches_initNamespace call = true ->
  getAttachedComment (candidate call) = Some comment ->
  includes comment "@namespace" = true ->
  getTag (parseJsdoc comment) "namespace" "name" = Some tag ->
  tag <> "" ->
  sourceRangeForNode document (candidate call) = Some range ->
  ns_scan document (visit_calls [call])
  = Ok [Namespace.Build_ScannedNamespace
          tag (candidate call) (parseJsdoc comment) range].
Proof.
  intros Hreach Hcomment Hmarker Htag Hne Hrange.
  assert (settled_name comment call = Js.Str tag) as Hsettled.
  { rewrite Htag. unfold Js.or; cbn.
    apply String.eqb_neq in Hne. rewrite Hne. reflexivity. }
  rewrite (scan_single_named document call comment range); try assumption.
  - rewrite Hsettled. reflexivity.
  - rewrite Hsettled. cbn. apply String.eqb_neq in Hne. rewrite Hne.
    reflexivity.
Qed.

(** X10.  A candidate for which no name can be settled, neither from a name
    tag nor from the declared identifier or the left-hand side, is passed
    over silently.  The name is settled before the range is looked up, so
    that nothing is thrown for such a candidate even when the document has
    no range for it. *)
Theorem unnamed_candidate_skipped
    (document : JavaScriptDocument) (call : HookCall) :
  (forall comment,
     getAttachedComment (candidate call) = Some comment ->
     Js.truthy (settled_name comment call) = false) ->
  (forall this, dispatch ns_hooks call this = (Ok tt, this))
  /\ ns_scan document (visit_calls [call]) = Ok [].
Proof.
  intros Hunnamed.
  assert (forall this, dispatch ns_hooks call this = (Ok tt, this)) as Hskip.
  { intros this. destruct (reaches_initNamespace call) eqn:Hreach.
    - rewrite dispatch_reaches by exact Hreach.
      apply initNamespace_unnamed, Hunnamed.
    - apply dispatch_skips, Hreach. }
  split; [exact Hskip|]. apply scan_single_skipped, Hskip.
Qed.

(** X11.  The namespace of an assignment is found on the parent of the
    assignment: the comment that marks it and the range it gets are those
    of the parent, the parent is the node it records, and its name, absent
    a name tag, is the name of the left-hand side. *)
Theorem assignment_namespace_on_parent
    (document : JavaScriptDocument) (operator : string)
    (lhs rhs parent : Node) (comment name : string) (range : SourceRange) :
  getAttachedComment parent = Some comment ->
  includes comment "@namespace" = true ->
  getTag (parseJsdoc comment) "namespace" "name" = None ->
  getIdentifierName lhs = Some name ->
  name <> "" ->
  sourceRangeForNode document parent = Some range ->
  ns_scan document
    (fun v =>
       enterAssignmentExpression v
         (AssignmentExpression operator lhs rhs) parent)
  = Ok [Namespace.Build_ScannedNamespace
          name parent (parseJsdoc comment) range].
Proof.
  intros Hcomment Hmarker Htag Hname Hne Hrange.
  unfold NamespaceScanner.scan.
  cbn [enterAssignmentExpression NamespaceScanner.hooks
       NamespaceScanner.enterAssignmentExpression].
  assert (Js.or (Js.of_option (getTag (parseJsdoc comment) "namespace" "name"))
                (Js.of_option (getIdentifierName lhs)) = Js.Str name)
    as Hsettled.
  { rewrite Htag, Hname. reflexivity. }
  rewrite (initNamespace_named _ _ _ _ _ comment _ Hcomment Hmarker).
  - cbn [NamespaceScanner.document]. rewrite Hrange, Hsettled. reflexivity.
  - rewrite Hsettled. cbn. apply String.eqb_neq in Hne. rewrite Hne.
    reflexivity.
Qed.

(** X12.  Scanning a traversal that makes the calls [calls1] and then the
    calls [calls2] gives the namespaces of the first followed by those of
    the second, in the order of the calls, or else the first failure: what
    a hook finds does not depend on what was found before, and a failure
    leaves no partial result. *)
Theorem scan_distributes
    (document : JavaScriptDocument) (calls1 calls2 : list HookCall) :
  ns_scan document (visit_calls (calls1 ++ calls2))
  = append_results (ns_scan document (visit_calls calls1))
                   (ns_scan document (visit_calls calls2)).
Proof.
  destruct (calls_frame document calls1) as (r1 & a1 & H1 & _).
  destruct (calls_frame document calls2) as (r2 & a2 & H2 & _).
  rewrite (scan_calls document calls1 r1 a1 H1).
  rewrite (scan_calls document calls2 r2 a2 H2).
  unfold NamespaceScanner.scan, visit_calls.
  rewrite for_of_app. unfold mbind, M_bind.
  rewrite H1 by reflexivity.
  destruct r1 as [[]|e]; [|reflexivity].
  rewrite H2 by reflexivity.
  destruct r2 as [[]|e]; reflexivity.
Qed.

(** X13.  A scan that succeeds yields at most one namespace for each hook
    call, and each namespace it yields was found at one of the calls: it
    records the candidate node of the call, its range is the one that the
    document has for that node, its annotation is the parsed comment of the
    node, which contains [@namespace], and its name is not empty. *)
Theorem scan_yields_found_namespaces
    (document : JavaScriptDocument) (calls : list HookCall)
    (nss : list (Namespace.ScannedNamespace Annotation)) :
  ns_scan document (visit_calls calls) = Ok nss ->
  (length nss <= length calls)%nat
  /\ Forall
       (fun ns =>
          exists call,
            call ∈ calls
            /\ found_at getAttachedComment parseJsdoc document call ns)
       nss.
Proof.
  destruct (calls_frame document calls) as (r & added & Hcalls & Hlen & Hfound).
  rewrite (scan_calls document calls r added Hcalls).
  destruct r as [[]|e]; [|discriminate].
  intros [= <-]. split; assumption.
Qed.

End NamespaceScannerTraversals.

Lemma unmarked_node_ignored_witness :
  NamespaceScanner.scan AstValue.getIdentifierName
    (fun _ => Some "* A plain comment. ") comment_text no_tag no_ranges
    (visit_calls [EnterVariableDeclaration var_Foo program])
  = Ok [].
Proof.
  refine (proj2 (unmarked_node_ignored AstValue.getIdentifierName
                   (fun _ => Some "* A plain comment. ") comment_text no_tag
                   no_ranges (EnterVariableDeclaration var_Foo program) _)).
  intros comment [= <-]. reflexivity.
Defined.

Lemma explicit_name_tag_wins_witness :
  NamespaceScanner.scan (fun _ => None) marked comment_text
    (fun _ _ _ => Some "Polymer.Explicit") one_statement
    (visit_calls [EnterVariableDeclaration var_Foo program])
  = Ok [Namespace.Build_ScannedNamespace
          "Polymer.Explicit" var_Foo "* @namespace " second_line].
Proof.
  apply (explicit_name_tag_wins (fun _ => None) marked comment_text
           (fun _ _ _ => Some "Polymer.Explicit") one_statement
           (EnterVariableDeclaration var_Foo program)
           "* @namespace " "Polymer.Explicit" second_line).
  - reflexivity.
  - reflexivity.
  - reflexivity.
  - reflexivity.
  - discriminate.
  - reflexivity.
Defined.

Lemma unnamed_candidate_skipped_witness :
  NamespaceScanner.scan (fun _ => None) marked comment_text no_tag no_ranges
    (visit_calls [EnterVariableDeclaration var_Foo program])
  = Ok [].
Proof.
  refine (proj2 (unnamed_candidate_skipped (fun _ => None) marked
                   comment_text no_tag no_ranges
                   (EnterVariableDeclaration var_Foo program) _)).
  intros comment _. reflexivity.
Defined.

Lemma assignment_namespace_on_parent_witness :
  NamespaceScanner.scan AstValue.getIdentifierName marked comment_text no_tag
    one_statement
    (fun v =>
       enterAssignmentExpression v assign_Foo_Bar
         (ExpressionStatement assign_Foo_Bar))
  = Ok [Namespace.Build_ScannedNamespace
          "Foo.Bar" (ExpressionStatement assign_Foo_Bar) "* @namespace "
          second_line].
Proof.
  apply (assignment_namespace_on_parent AstValue.getIdentifierName marked
           comment_text no_tag one_statement "="
           (MemberExpression (Identifier "Foo") (Identifier "Bar") false)
           (ObjectExpression []) (ExpressionStatement assign_Foo_Bar)
           "* @namespace " "Foo.Bar" second_line).
  - reflexivity.
  - reflexivity.
  - reflexivity.
  - reflexivity.
  - discriminate.
  - reflexivity.
Defined.

Lemma scan_yields_found_namespaces_witness :
  (length
     [Namespace.Build_ScannedNamespace
        "Foo" var_Foo "* @namespace " second_line] <= 2)%nat.
Proof.
  refine (proj1 (scan_yields_found_namespaces AstValue.getIdentifierName
                   marked comment_text no_tag one_statement
                   [EnterVariableDeclaration var_Foo program;
                    EnterVariableDeclaration var_Foo_Bar program]
                   [Namespace.Build_ScannedNamespace
                      "Foo" var_Foo "* @namespace " second_line] _)).
  reflexivity.
Defined.

(** * Further properties of the element mixins *)

Section MixinFurther.

Context {Value Document : Type}.
Variable empty_array false_value kinds_set : Value.
Variable new_ScannedElementMixin new_ElementMixin : gmap string Value.
Variable truthy : Value -> bool.
Variable array_elements : Value -> list Value.
Variable addProperty : gmap string Value -> Value -> gmap string Value.

Abbreviation new_scanned :=
  (ScannedPolymerElementMixin.new_ScannedPolymerElementMixin
     empty_array false_value new_ScannedElementMixin truthy array_elements
     addProperty).
Abbreviation resolve_scanned :=
  (@PolymerElementMixin.resolve Value empty_array kinds_set new_ElementMixin
     Document).

(** The loop of [emitPropertyMetadata], for any list of fields and any
    metadata to start from. *)
Lemma emit_loop_lookup (property : gmap string Value) (fields : list string)
    (metadata : gmap string Value) (k : string) :
  foldl (fun polymerMetadata field =>
           match property !! field with
           | Some v => <[field := v]> polymerMetadata
           | None => polymerMetadata
           end)
        metadata fields !! k
  = if bool_decide (k ∈ fields)
    then property !! k ∪ metadata !! k
    else metadata !! k.
Proof.
  revert metadata. induction fields as [|f fields IH]; intros metadata.
  - reflexivity.
  - cbn [foldl]. rewrite IH.
    destruct (decide (k = f)) as [->|Hne].
    + rewrite (bool_decide_eq_true_2 (f ∈ f :: fields)) by left.
      destruct (property !! f) as [v|] eqn:Hf.
      * rewrite lookup_insert_eq.
        destruct (bool_decide (f ∈ fields)), (metadata !! f); reflexivity.
      * destruct (bool_decide (f ∈ fields)), (metadata !! f); reflexivity.
    + assert (bool_decide (k ∈ f :: fields) = bool_decide (k ∈ fields)) as ->.
      { apply bool_decide_ext. rewrite elem_of_cons. tauto. }
      destruct (property !! f) as [v|].
      * rewrite lookup_insert_ne by congruence. reflexivity.
      * reflexivity.
Qed.

(** X14.  [emitPropertyMetadata] returns an object with the single member
    [polymer], whose members are exactly those of [notify], [observer] and
    [readOnly] that the property has, each with the value it has on the
    property; no other member of the property gets there. *)
Theorem emitPropertyMetadata_fields (property : gmap string Value) :
  exists polymerMetadata,
    ScannedPolymerElementMixin.emitPropertyMetadata property
    = {["polymer" := polymerMetadata]}
    /\ (forall k,
          polymerMetadata !! k
          = if bool_decide (k ∈ polymerMetadataFields)
            then property !! k else None)
    /\ polymerMetadata ⊆ property.
Proof.
  eexists. split; [reflexivity|].
  assert (forall k,
            foldl (fun polymerMetadata field =>
                     match property !! field with
                     | Some v => <[field := v]> polymerMetadata
                     | None => polymerMetadata
                     end)
                  (∅ : gmap string Value) ["notify"; "observer"; "readOnly"]
              !! k
            = if bool_decide (k ∈ polymerMetadataFields)
              then property !! k else None) as Hlookup.
  { intros k. rewrite emit_loop_lookup. rewrite lookup_empty.
    unfold polymerMetadataFields.
    destruct (bool_decide _); [|reflexivity].
    destruct (property !! k); reflexivity. }
  split; [exact Hlookup|].
  apply map_subseteq_spec. intros k v. rewrite Hlookup.
  destruct (bool_decide _); [tauto|discriminate].
Qed.

(** The object on which the constructor body starts. *)
Lemma new_scanned_without_properties (options : option (gmap string Value))
    (k : string) :
  (forall o ps,
     options = Some o -> o !! "properties" = Some ps -> truthy ps = false) ->
  new_scanned options !! k
  = if bool_decide (k = "properties") then Some empty_array
    else (default ∅ options) !! k ∪ new_scanned None !! k.
Proof.
  intros Hfalsy.
  unfold ScannedPolymerElementMixin.new_ScannedPolymerElementMixin,
    PolymerElementMixin.Object_assign.
  cbn [default mbind option_bind].
  assert (forall this : gmap string Value,
            match options ≫= (fun o => o !! "properties") with
            | Some properties =>
                if truthy properties
                then foldl addProperty this (array_elements properties)
                else this
            | None => this
            end = this) as ->.
  { intros this. destruct options as [o|]; cbn; [|reflexivity].
    destruct (o !! "properties") as [ps|] eqn:Hps; [|reflexivity].
    rewrite (Hfalsy o ps eq_refl Hps). reflexivity. }
  rewrite !(right_id_L ∅ (∪)). rewrite delete_empty.
  rewrite (left_id_L ∅ (∪)).
  rewrite lookup_union.
  case_bool_decide as Hk.
  - subst k. rewrite lookup_delete_eq.
    rewrite lookup_insert_ne by discriminate.
    rewrite lookup_insert_ne by discriminate.
    rewrite lookup_insert_ne by discriminate.
    rewrite lookup_insert_ne by discriminate.
    rewrite lookup_insert_eq. reflexivity.
  - rewrite lookup_delete_ne by congruence. reflexivity.
Qed.

(** X15.  The constructor of a scanned mixin never stores the [properties]
    of its options as they are.  Given properties, it builds the object
    that it builds for the other options, whose [properties] are empty, and
    hands each property to [addProperty], in order.  Every other option
    overrides the initial value of the field it names. *)
Theorem constructor_adds_properties (options : gmap string Value) :
  let others := delete "properties" options in
  (forall ps,
     options !! "properties" = Some ps ->
     truthy ps = true ->
     new_scanned (Some options)
     = foldl addProperty (new_scanned (Some others)) (array_elements ps))
  /\ new_scanned (Some others) !! "properties" = Some empty_array
  /\ (forall k v,
        k <> "properties" ->
        options !! k = Some v ->
        new_scanned (Some others) !! k = Some v)
  /\ (forall k,
        k <> "properties" ->
        options !! k = None ->
        new_scanned (Some others) !! k = new_scanned None !! k).
Proof.
  intros others.
  assert (forall o ps,
            Some others = Some o -> o !! "properties" = Some ps ->
            truthy ps = false) as Hothers.
  { intros o ps [= <-]. unfold others. rewrite lookup_delete_eq.
    discriminate. }
  split; [|split; [|split]].
  - intros ps Hps Hps_truthy.
    unfold ScannedPolymerElementMixin.new_ScannedPolymerElementMixin,
      PolymerElementMixin.Object_assign.
    cbn [default mbind option_bind].
    rewrite Hps, Hps_truthy. unfold others.
    rewrite lookup_delete_eq.
    unfold Datatypes.id.
    rewrite !(right_id_L ∅ (∪)). rewrite delete_delete_eq. reflexivity.
  - rewrite (new_scanned_without_properties _ _ Hothers). reflexivity.
  - intros k v Hk Hv.
    rewrite (new_scanned_without_properties _ _ Hothers).
    rewrite bool_decide_eq_false_2 by exact Hk.
    change (default ∅ (Some others)) with others.
    unfold others. rewrite lookup_delete_ne by congruence.
    rewrite Hv. destruct (new_scanned None !! k); reflexivity.
  - intros k Hk Hnone.
    rewrite (new_scanned_without_properties _ _ Hothers).
    rewrite bool_decide_eq_false_2 by exact Hk.
    change (default ∅ (Some others)) with others.
    unfold others. rewrite lookup_delete_ne by congruence.
    rewrite Hnone. destruct (new_scanned None !! k); reflexivity.
Qed.

(** X16.  A scanned mixin that is constructed from options without
    properties and then resolved has every option as a member of the
    resolved object, has the empty list for each of [properties],
    [observers], [listeners] and [behaviorAssignments] that the options do
    not give, and has the [kinds] of a resolved mixin unless an option or
    the superclass gave it some. *)
Theorem construct_then_resolve
    (options : gmap string Value) (document : Document) :
  options !! "properties" = None ->
  let element := resolve_scanned (new_scanned (Some options)) document in
  (forall k v, options !! k = Some v -> element !! k = Some v)
  /\ element !! "properties" = Some empty_array
  /\ (forall k,
        k ∈ ["observers"; "listeners"; "behaviorAssignments"] ->
        options !! k = None ->
        element !! k = Some empty_array)
  /\ (options !! "kinds" = None ->
      new_ScannedElementMixin !! "kinds" = None ->
      element !! "kinds" = Some kinds_set).
Proof.
  intros Hnone element.
  assert (forall o ps,
            Some options = Some o -> o !! "properties" = Some ps ->
            truthy ps = false) as Hoptions.
  { intros o ps [= <-]. rewrite Hnone. discriminate. }
  pose proof (fun k => new_scanned_without_properties (Some options) k Hoptions)
    as Hscanned.
  pose proof (fun k => new_scanned_without_properties None k
                         ltac:(discriminate)) as Hinit.
  change (default ∅ (Some options)) with options in Hscanned.
  split; [|split; [|split]].
  - intros k v Hv. apply resolve_lookup_Some. rewrite Hscanned.
    case_bool_decide as Hk; [congruence|]. rewrite Hv.
    destruct (new_scanned None !! k); reflexivity.
  - apply resolve_lookup_Some. rewrite Hscanned. reflexivity.
  - intros k Hk Hopt. apply resolve_lookup_Some. rewrite Hscanned, Hopt.
    rewrite !elem_of_cons, elem_of_nil in Hk.
    unfold ScannedPolymerElementMixin.new_ScannedPolymerElementMixin,
      PolymerElementMixin.Object_assign.
    cbn [default mbind option_bind].
    rewrite !(right_id_L ∅ (∪)), delete_empty, (left_id_L ∅ (∪)).
    destruct Hk as [->|[->|[->|[]]]]; cbn [bool_decide];
      rewrite bool_decide_eq_false_2 by discriminate;
      repeat (rewrite lookup_insert_ne by discriminate);
      rewrite lookup_insert_eq; reflexivity.
  - intros Hopt Hsuper. unfold element.
    rewrite resolve_lookup_None.
    + unfold PolymerElementMixin.new_PolymerElementMixin.
      rewrite lookup_insert_ne by discriminate.
      rewrite lookup_insert_eq. reflexivity.
    + rewrite Hscanned, Hopt.
      rewrite bool_decide_eq_false_2 by discriminate.
      unfold ScannedPolymerElementMixin.new_ScannedPolymerElementMixin,
        PolymerElementMixin.Object_assign.
      cbn [default mbind option_bind].
      rewrite !(right_id_L ∅ (∪)), delete_empty, (left_id_L ∅ (∪)).
      repeat (rewrite lookup_insert_ne by discriminate).
      rewrite Hsuper. reflexivity.
Qed.

End MixinFurther.

Lemma constructor_adds_properties_witness :
  ScannedPolymerElementMixin.new_ScannedPolymerElementMixin
    [] ["false"] ∅ (fun _ => true) sample_elements sample_addProperty
    (Some sample_options)
  = foldl sample_addProperty
      (ScannedPolymerElementMixin.new_ScannedPolymerElementMixin
         [] ["false"] ∅ (fun _ => true) sample_elements sample_addProperty
         (Some (delete "properties" sample_options)))
      (sample_elements ["simple"; "deep"]).
Proof.
  refine (proj1 (constructor_adds_properties [] ["false"] ∅ (fun _ => true)
                   sample_elements sample_addProperty sample_options)
            ["simple"; "deep"] _ _).
  - reflexivity.
  - reflexivity.
Defined.

Lemma construct_then_resolve_witness :
  PolymerElementMixin.resolve [] ["element-mixin"; "polymer-element-mixin"] ∅
    (ScannedPolymerElementMixin.new_ScannedPolymerElementMixin
       [] ["false"] ∅ (fun _ => true) sample_elements sample_addProperty
       (Some (<["listeners" := ["tap"]]> ∅)))
    tt
  !! "properties" = Some [].
Proof.
  refine (proj1 (proj2 (construct_then_resolve
                          [] ["false"] ["element-mixin"; "polymer-element-mixin"]
                          ∅ ∅ (fun _ => true) sample_elements
                          sample_addProperty
                          (<["listeners" := ["tap"]]> ∅) tt _))).
  reflexivity.
Defined.

(** The constructor on the sample options: the properties have gone through
    [addProperty], the listeners are those of the options and the observers
    are the initial empty list. *)
Example construct_sample :
  let this :=
    ScannedPolymerElementMixin.new_ScannedPolymerElementMixin
      [] ["false"] ∅ (fun _ => true) sample_elements sample_addProperty
      (Some sample_options) in
  this !! "properties" = Some ["simple"; "deep"]
  /\ this !! "listeners" = Some ["tap"]
  /\ this !! "observers" = Some [].
Proof. repeat split; reflexivity. Qed.

(** X17.  What the [behaviors] handler pushes for an array literal comes
    from its elements.  An assignment is pushed exactly for the elements
    that have a non-empty identifier name; it has that name and the source
    range of the element.  Every warning pushed is located at an element
    without such a name and its message names the type of that element. *)
Theorem behaviors_outcomes_located
    (getIdentifierName : Node -> option string)
    (document : JavaScriptDocument) (elements : list Node)
    (d : ScannedPolymerElement) :
  exists assignments ws,
    declarationPropertyHandlers.behaviors getIdentifierName document
      (ArrayExpression elements) d
    = (Ok tt,
       with_behaviors d (behaviorAssignments d ++ assignments)
         (warnings d ++ ws))
    /\ (forall a,
          a ∈ assignments <->
          exists e,
            e ∈ elements
            /\ getIdentifierName e = Some (Behavior.name a)
            /\ Behavior.name a <> ""
            /\ Behavior.sourceRange a = sourceRangeForNode document e)
    /\ (forall w,
          w ∈ ws ->
          exists e,
            e ∈ elements
            /\ (getIdentifierName e = None \/ getIdentifierName e = Some "")
            /\ sourceRange w = sourceRangeForNode document e
            /\ severity w = WARNING
            /\ message w
               = "Could not determine behavior name from expression of type "
                 +:+ node_type e).
Proof.
  eexists _, _. split; [apply behaviors_array_expression|]. split.
  - intros [n r]. rewrite list_elem_of_omap. cbn.
    split.
    + intros (e & He & Ha). exists e. split; [exact He|].
      unfold getBehaviorAssignmentOrWarning in Ha.
      destruct (getIdentifierName e) as [[|c n']|]; cbn in Ha;
        try discriminate Ha.
      injection Ha as <- <-. repeat split. discriminate.
    + intros (e & He & Hn & Hne & Hr). exists e. split; [exact He|].
      unfold getBehaviorAssignmentOrWarning. rewrite Hn. cbn.
      apply String.eqb_neq in Hne. rewrite Hne. cbn. rewrite Hr.
      reflexivity.
  - intros w. rewrite list_elem_of_omap.
    intros (e & He & Hw). exists e. split; [exact He|].
    unfold getBehaviorAssignmentOrWarning in Hw.
    destruct (getIdentifierName e) as [[|c n']|]; cbn in Hw;
      try discriminate Hw.
    + injection Hw as <-. split; [right; reflexivity|]. repeat split.
    + injection Hw as <-. split; [left; reflexivity|]. repeat split.
Qed.

(** * A further property of the TypeScript pre-parser *)

(** X18.  The inline information given to [parse] decides neither whether
    the parse fails nor what the failure says: for the same contents and
    URL, two calls both throw a warning with the same code, severity and
    message, or both return a document with the same URL, contents and
    syntax tree. *)
Theorem parse_inline_info_only_relocates
    {SourceFile MessageText AstNode : Type}
    (createSourceFile : string -> string -> SourceFile)
    (parseDiagnostics : SourceFile -> option (list (ts.Diagnostic MessageText)))
    (getLineAndCharacterOfPosition : SourceFile -> Z -> ts.LineAndCharacter)
    (flattenDiagnosticMessageText : MessageText -> string -> string)
    (contents url : string)
    (info1 info2 : option (@TypeScriptPreparser.InlineDocInfo AstNode)) :
  match
    TypeScriptPreparser.parse createSourceFile parseDiagnostics
      getLineAndCharacterOfPosition flattenDiagnosticMessageText
      contents url info1,
    TypeScriptPreparser.parse createSourceFile parseDiagnostics
      getLineAndCharacterOfPosition flattenDiagnosticMessageText
      contents url info2
  with
  | Throw (WarningCarryingException w1), Throw (WarningCarryingException w2) =>
      code w1 = code w2 /\ severity w1 = severity w2
      /\ message w1 = message w2
  | Ok document1, Ok document2 =>
      TypeScriptPreparser.doc_url document1
      = TypeScriptPreparser.doc_url document2
      /\ TypeScriptPreparser.doc_contents document1
         = TypeScriptPreparser.doc_contents document2
      /\ TypeScriptPreparser.doc_ast document1
         = TypeScriptPreparser.doc_ast document2
  | _, _ => False
  end.
Proof.
  unfold TypeScriptPreparser.parse.
  destruct (List.find _ _) as [parseError|]; cbn; repeat split.
Qed.
